(** * Express.js tutorial repository: the Workouts sample application and
      the code samples of the documents, embedded and checked.

    The repository holds two executable middleware modules
    ([Workouts/middleware/auth.js], [Workouts/middleware/date.js]), the
    router and server files that consume them, and Markdown documents whose
    code samples are modelled here where a property is stated about them. *)

From Stdlib Require Import ZArith Lia Ascii String.
From stdpp Require Import base strings list gmap pretty.

Local Open Scope Z_scope.
Local Open Scope string_scope.

(** ** JavaScript runtime notions shared by all samples *)

(** JSON-like values: response bodies, decoded token payloads. *)
#[warnings="-register-all"]
Inductive json : Type :=
  | JNull
  | JBool (b : bool)
  | JNum (n : Z)
  | JStr (s : string)
  | JObj (fields : list (string * json)).

(** A thrown JavaScript exception, by constructor name and message. *)
Record js_exn : Type := JsExn { exn_name : string; exn_message : string }.

(** Completion of a call: it returns a value or throws. *)
Inductive completion (A : Type) : Type :=
  | Normal (a : A)
  | Thrown (e : js_exn).
Arguments Normal {A} a.
Arguments Thrown {A} e.

(** [!v] for a value that is a string or [undefined]: the empty string and
    [undefined] are falsy. *)
Definition truthy (v : option string) : bool :=
  match v with
  | None => false
  | Some s => negb (String.eqb s "")
  end.

(** [s.split(sep)] for a one-character separator: the segments between
    occurrences of [sep]; a string without [sep] is its own single segment. *)
Fixpoint split (sep : ascii) (s : string) : list string :=
  match s with
  | EmptyString => [EmptyString]
  | String c s' =>
      if Ascii.eqb c sep then EmptyString :: split sep s'
      else match split sep s' with
           | seg :: rest => String c seg :: rest
           | [] => [String c EmptyString]
           end
  end.

Definition space : ascii := " "%char.

(** Does the string contain the character? *)
Fixpoint contains (c : ascii) (s : string) : bool :=
  match s with
  | EmptyString => false
  | String c' s' => Ascii.eqb c' c || contains c s'
  end.

(** The part of [s] before the first [c], all of [s] when it has none. *)
Fixpoint before_first (c : ascii) (s : string) : string :=
  match s with
  | EmptyString => EmptyString
  | String c' s' => if Ascii.eqb c' c then EmptyString else String c' (before_first c s')
  end.

(** The part of [s] after the first [c], when it has one. *)
Fixpoint after_first (c : ascii) (s : string) : option string :=
  match s with
  | EmptyString => None
  | String c' s' => if Ascii.eqb c' c then Some s' else after_first c s'
  end.

(** The segment after the first space: what follows that space, up to the
    next space or the end of the string. *)
Definition segment_after_first_space (s : string) : option string :=
  before_first space <$> after_first space s.

(** ** The objects a middleware function is handed *)

(** [req]: the header table (Node lower-cases the names and delivers the
    authorization header as one string) and the [user] property that
    [verifyToken] attaches. *)
Record request : Type := Request {
  headers : gmap string string;
  user : option json
}.

(** [res]: the status code set by [res.status] and the responses sent so
    far, each with the status code it went out with. Every send is
    recorded; that Express raises an error on a second send for the same
    request is not modelled. *)
Record response : Type := Response {
  statusCode : Z;
  sent : list (Z * json)
}.

(** What a handler can touch: [req], [res] and the lines written to the
    terminal by [console.log] and [console.error]. *)
Record world : Type := World {
  req : request;
  res : response;
  console : list string
}.

(** The calls a function makes on objects it does not define. *)
Inductive api_call : Type :=
  | res_status_call (code : Z)
  | res_json_call (body : json)
  | res_send_call (body : json)
  | jwt_verify_call (token : option string) (key : string)
  | next_call
  | console_log_call (line : string)
  | console_error_call (args : list (option string)).

(** What running a piece of code yields: how it completed, the world it
    leaves, and the calls it made, oldest first. *)
Record result (A : Type) : Type := Result {
  outcome : completion A;
  final : world;
  calls : list api_call
}.
Arguments Result {A} outcome final calls.
Arguments outcome {A} r.
Arguments final {A} r.
Arguments calls {A} r.

(** State, exceptions and a log of calls. A throw keeps the state and the
    calls made before it. *)
Definition M (A : Type) : Type := world -> result A.

#[global] Instance M_ret : MRet M := fun A a w => Result (Normal a) w [].

#[global] Instance M_bind : MBind M := fun A B f m w =>
  let r := m w in
  match outcome r with
  | Normal a =>
      let r' := f a (final r) in
      Result (outcome r') (final r') (calls r ++ calls r')
  | Thrown e => Result (Thrown e) (final r) (calls r)
  end.

Definition throw {A : Type} (e : js_exn) : M A :=
  fun w => Result (Thrown e) w [].

(** [try { body } catch (error) { handler }] *)
Definition try_catch {A : Type} (body : M A) (handler : js_exn -> M A) : M A :=
  fun w =>
    let r := body w in
    match outcome r with
    | Normal a => r
    | Thrown e =>
        let r' := handler e (final r) in
        Result (outcome r') (final r') (calls r ++ calls r')
    end.

(** [req.headers[name]] *)
Definition get_header (name : string) : M (option string) :=
  fun w => Result (Normal (headers (req w) !! name)) w [].

(** [req.user = v] *)
Definition set_user (v : json) : M unit :=
  fun w =>
    Result (Normal tt)
      (World (Request (headers (req w)) (Some v)) (res w) (console w)) [].

(** [res.status(code)]: sets the status code (and returns [res]). *)
Definition res_status (code : Z) : M unit :=
  fun w =>
    Result (Normal tt)
      (World (req w) (Response code (sent (res w))) (console w))
      [res_status_call code].

(** [res.json(body)]: sends [body] with the current status code. *)
Definition res_json (body : json) : M unit :=
  fun w =>
    Result (Normal tt)
      (World (req w)
         (Response (statusCode (res w))
            (sent (res w) ++ [(statusCode (res w), body)]))
         (console w))
      [res_json_call body].

(** [res.send(body)] for a body that is not a number: sends [body] with
    the current status code. (Express 4 takes a number argument for a
    status code; the calls written with [res_send] pass text, and a value
    of unknown kind goes through [res_send_value].) *)
Definition res_send (body : json) : M unit :=
  fun w =>
    Result (Normal tt)
      (World (req w)
         (Response (statusCode (res w))
            (sent (res w) ++ [(statusCode (res w), body)]))
         (console w))
      [res_send_call body].

(** [console.log(line)] *)
Definition console_log (line : string) : M unit :=
  fun w =>
    Result (Normal tt) (World (req w) (res w) (console w ++ [line]))
      [console_log_call line].

(** ** What the middleware modules take from outside *)

(** [require("jsonwebtoken")]: the synchronous [jwt.verify(token, key)],
    which returns the decoded payload or throws. Its first argument is a
    string or [undefined]. *)
Class Jsonwebtoken : Type := {
  jwt_verify : option string -> string -> completion json
}.

(** The [next] argument: the rest of the request pipeline. It may change
    the world and it returns or throws. *)
Class Continuation : Type := {
  next_k : world -> completion unit * world
}.

(** [new Date()] and its two locale renderings. *)
Class Clock : Type := {
  toLocaleTimeString : string;
  toLocaleDateString : string
}.

(** Express runs each handler inside a [try] of its own, so the [next] it
    hands to a middleware returns to its caller. *)
Definition returns_to_caller (K : Continuation) : Prop :=
  forall w : world, fst (next_k w) = Normal tt.

(** [jwt.verify(undefined, key)] throws ("jwt must be provided"). *)
Definition rejects_undefined (J : Jsonwebtoken) : Prop :=
  forall key : string, exists e : js_exn, jwt_verify None key = Thrown e.

(** [jwt.verify(token, key)] as a call of the middleware. *)
Definition call_jwt_verify `{Jsonwebtoken} (token : option string)
    (key : string) : M json :=
  fun w => Result (jwt_verify token key) w [jwt_verify_call token key].

(** [next()] *)
Definition call_next `{Continuation} : M unit :=
  fun w => Result (fst (next_k w)) (snd (next_k w)) [next_call].

(** ** Workouts/middleware/auth.js *)

Definition SECRET_KEY : string := "your_secret_key".

Definition message (text : string) : json := JObj [("message", JStr text)].

(** [token.split(" ")[1]]; calling [split] on [undefined] is a TypeError. *)
Definition second_segment (token : option string) : M (option string) :=
  match token with
  | Some s => mret (split space s !! 1%nat)
  | None => throw (JsExn "TypeError" "Cannot read properties of undefined")
  end.

Definition verifyToken `{Jsonwebtoken} `{Continuation} : M unit :=
  token ← get_header "authorization";
  if negb (truthy token) then
    res_status 403;;
    res_json (message "Access denied, token missing")
  else
    try_catch
      (arg ← second_segment token;
       decoded ← call_jwt_verify arg SECRET_KEY;
       set_user decoded;;
       call_next)
      (fun error =>
         res_status 401;;
         res_json (message "Invalid token")).

(** The world after [res.status(code).json(body)]. *)
Definition answered (w : world) (code : Z) (body : json) : world :=
  World (req w) (Response code (sent (res w) ++ [(code, body)])) (console w).

(** The world after [req.user = decoded]. *)
Definition authenticated (w : world) (decoded : json) : world :=
  World (Request (headers (req w)) (Some decoded)) (res w) (console w).

(** The four paths of [verifyToken], one of which every request takes. *)
Inductive verifyToken_path `{Jsonwebtoken} `{Continuation} (w : world)
    : result unit -> Prop :=
  | path_refused :
      truthy (headers (req w) !! "authorization") = false ->
      verifyToken_path w
        (Result (Normal tt)
           (answered w 403 (message "Access denied, token missing"))
           [res_status_call 403;
            res_json_call (message "Access denied, token missing")])
  | path_rejected h e :
      headers (req w) !! "authorization" = Some h -> h <> "" ->
      jwt_verify (split space h !! 1%nat) SECRET_KEY = Thrown e ->
      verifyToken_path w
        (Result (Normal tt) (answered w 401 (message "Invalid token"))
           [jwt_verify_call (split space h !! 1%nat) SECRET_KEY;
            res_status_call 401; res_json_call (message "Invalid token")])
  | path_accepted h decoded :
      headers (req w) !! "authorization" = Some h -> h <> "" ->
      jwt_verify (split space h !! 1%nat) SECRET_KEY = Normal decoded ->
      fst (next_k (authenticated w decoded)) = Normal tt ->
      verifyToken_path w
        (Result (Normal tt) (snd (next_k (authenticated w decoded)))
           [jwt_verify_call (split space h !! 1%nat) SECRET_KEY; next_call])
  | path_next_threw h decoded e :
      headers (req w) !! "authorization" = Some h -> h <> "" ->
      jwt_verify (split space h !! 1%nat) SECRET_KEY = Normal decoded ->
      fst (next_k (authenticated w decoded)) = Thrown e ->
      verifyToken_path w
        (Result (Normal tt)
           (answered (snd (next_k (authenticated w decoded))) 401
              (message "Invalid token"))
           [jwt_verify_call (split space h !! 1%nat) SECRET_KEY; next_call;
            res_status_call 401; res_json_call (message "Invalid token")]).

(** ** Workouts/middleware/date.js *)

Definition printDate `{Clock} `{Continuation} : M unit :=
  console_log (toLocaleTimeString ++ ", " ++ toLocaleDateString);;
  call_next.

(** The middleware functions that Workouts/middleware defines. *)
Definition workouts_middleware `{Jsonwebtoken} `{Continuation} `{Clock}
    : list (M unit) :=
  [verifyToken; printDate].

(** ** Fixtures for running the middleware on concrete requests *)

(** A jsonwebtoken whose only valid token under [SECRET_KEY] is
    valid.jwt.token, for user 1. *)
Definition fixture_jwt : Jsonwebtoken :=
  {| jwt_verify token key :=
       match token with
       | None => Thrown (JsExn "JsonWebTokenError" "jwt must be provided")
       | Some t =>
           if String.eqb t "valid.jwt.token" && String.eqb key SECRET_KEY
           then Normal (JObj [("id", JNum 1)])
           else Thrown (JsExn "JsonWebTokenError" "invalid token")
       end |}.

Definition fixture_clock : Clock :=
  {| toLocaleTimeString := "10:15:30 AM"; toLocaleDateString := "11/2/2026" |}.

(** A [next] whose downstream handler is not shielded and throws. *)
Definition throwing_next : Continuation :=
  {| next_k w := (Thrown (JsExn "Error" "downstream failure"), w) |}.

(** A [next] with nothing downstream. *)
Definition end_of_pipeline : Continuation :=
  {| next_k w := (Normal tt, w) |}.

(** A request with the given headers, before anything has handled it. *)
Definition incoming (hs : gmap string string) : world :=
  World (Request hs None) (Response 200 []) [].

(** ** Counting what a run did *)

Definition is_next (c : api_call) : bool :=
  match c with next_call => true | _ => false end.

(** [res.json] and [res.send] end the request with a response;
    [res.status] only sets the code. *)
Definition is_send (c : api_call) : bool :=
  match c with res_json_call _ | res_send_call _ => true | _ => false end.

Definition is_verify (c : api_call) : bool :=
  match c with jwt_verify_call _ _ => true | _ => false end.

Definition count_calls (p : api_call -> bool) (cs : list api_call) : nat :=
  length (List.filter p cs).

(** The function that a call names, without its arguments. *)
Inductive api : Type :=
  | Res_status | Res_json | Res_send | Jwt_verify | Next
  | Console_log | Console_error.

Definition api_of (c : api_call) : api :=
  match c with
  | res_status_call _ => Res_status
  | res_json_call _ => Res_json
  | res_send_call _ => Res_send
  | jwt_verify_call _ _ => Jwt_verify
  | next_call => Next
  | console_log_call _ => Console_log
  | console_error_call _ => Console_error
  end.

(** The sequence of functions a run called: its path through the code. *)
Definition shape {A : Type} (r : result A) : list api := api_of <$> calls r.

(** A function body is straight-line when every request takes it through
    the same sequence of calls. *)
Definition straight_line (f : M unit) : Prop :=
  forall w1 w2 : world, shape (f w1) = shape (f w2).

(** A function tells failure modes apart when two requests are both
    refused, with different status codes or different bodies. *)
Definition distinguishes_failures (f : M unit) : Prop :=
  exists (w1 w2 : world) (r1 r2 : Z * json),
    count_calls is_next (calls (f w1)) = 0%nat /\
    count_calls is_next (calls (f w2)) = 0%nat /\
    sent (res w1) = [] /\ sent (res w2) = [] /\
    sent (res (final (f w1))) = [r1] /\ sent (res (final (f w2))) = [r2] /\
    r1 <> r2.

(** ** Error-Handling/centralized.handling.md: the error-handling middleware
       samples of its two documents *)

(** The properties of an error object that the samples read; a property
    that is not there reads as [undefined] ([None]). *)
Record js_error : Type := JsError {
  err_status : option Z;
  err_message : option string;
  err_stack : option string;
  err_details : option json
}.

(** [process.env.NODE_ENV] *)
Class ProcessEnv : Type := { NODE_ENV : option string }.

(** [console.error(...args)]: one line on the console, the arguments
    separated by spaces. *)
Definition console_error (args : list (option string)) : M unit :=
  fun w =>
    Result (Normal tt)
      (World (req w) (res w)
         (console w ++ [String.concat " " (default "undefined" <$> args)]))
      [console_error_call args].

(** [status || fallback] on a number or [undefined]: zero is falsy. *)
Definition or_status (status : option Z) (fallback : Z) : Z :=
  match status with
  | Some n => if Z.eqb n 0 then fallback else n
  | None => fallback
  end.

(** [text || fallback] on a string or [undefined]. *)
Definition or_string (text : option string) (fallback : string) : string :=
  match text with
  | Some s => if String.eqb s "" then fallback else s
  | None => fallback
  end.

Definition json_truthy (j : json) : bool :=
  match j with
  | JNull => false
  | JBool b => b
  | JNum n => negb (Z.eqb n 0)
  | JStr s => negb (String.eqb s "")
  | JObj _ => true
  end.

(** [details || null] *)
Definition or_null (details : option json) : json :=
  match details with
  | Some j => if json_truthy j then j else JNull
  | None => JNull
  end.

(** An object literal: a property whose value is [undefined] is left out
    when the object is serialised. *)
Definition object (props : list (string * option json)) : json :=
  JObj (omap (fun p => pair (fst p) <$> snd p) props).

(** Line 40, "Basic Error-handling Middleware Example". *)
Definition basic_handler (err : js_error) : M unit :=
  console_error [err_stack err];;
  res_status 500;;
  res_send (JStr "Something went wrong!").

(** Line 73, "Example of Structured Error Response". *)
Definition structured_handler (err : js_error) : M unit :=
  res_status (or_status (err_status err) 500);;
  res_json (object [
    ("success", Some (JBool false));
    ("message", Some (JStr (or_string (err_message err) "Internal Server Error")));
    ("details", Some (or_null (err_details err)))]).

(** Line 120, "Using the Custom Error Class". *)
Definition custom_error_handler (err : js_error) : M unit :=
  res_status (or_status (err_status err) 500);;
  res_json (object [
    ("success", Some (JBool false));
    ("message", Some (JStr (or_string (err_message err) "Something went wrong")))]).

(** Line 161, "Example of Centralized Error Handling in Express". *)
Definition comprehensive_handler `{ProcessEnv} (err : js_error) : M unit :=
  console_error [err_stack err];;
  res_status (or_status (err_status err) 500);;
  res_json (object [
    ("success", Some (JBool false));
    ("message", Some (JStr (or_string (err_message err) "Internal Server Error")));
    ("details",
       if bool_decide (NODE_ENV = Some "development")
       then JStr <$> err_stack err
       else Some JNull)]).

(** Line 234, "Example (Basic Error-Handling Middleware)". *)
Definition basic_handler' (err : js_error) : M unit :=
  console_error [err_stack err];;
  res_status 500;;
  res_send (JStr "Something went wrong!").

(** Line 267, "Example (Catching Synchronous Errors)". *)
Definition sync_handler (err : js_error) : M unit :=
  res_status 500;;
  res_send (JStr "Synchronous error occurred").

(** Line 293, "Example (Catching Asynchronous Errors with Promises)". *)
Definition async_handler (err : js_error) : M unit :=
  res_status 500;;
  res_send (JStr "Asynchronous error occurred").

(** Line 344, "Example (Centralized Error-Handling Middleware)". *)
Definition logging_handler (err : js_error) : M unit :=
  console_error [Some "Error message:"; err_message err];;
  console_error [Some "Error stack:"; err_stack err];;
  res_status 500;;
  res_json (object [("error", Some (JStr "Internal Server Error"))]).

(** A sample as written: its parameter list and its body. *)
Record error_handler : Type := ErrorHandler {
  source_line : nat;
  params : list string;
  handle : js_error -> M unit
}.

(** The error-handling middleware of the two documents, in file order. *)
Definition error_handlers `{ProcessEnv} : list error_handler := [
  ErrorHandler 40 ["err"; "req"; "res"; "next"] basic_handler;
  ErrorHandler 73 ["err"; "req"; "res"; "next"] structured_handler;
  ErrorHandler 120 ["err"; "req"; "res"; "next"] custom_error_handler;
  ErrorHandler 161 ["err"; "req"; "res"; "next"] comprehensive_handler;
  ErrorHandler 234 ["err"; "req"; "res"; "next"] basic_handler';
  ErrorHandler 267 ["err"; "req"; "res"; "next"] sync_handler;
  ErrorHandler 293 ["err"; "req"; "res"; "next"] async_handler;
  ErrorHandler 344 ["err"; "req"; "res"; "next"] logging_handler ].

(** The status the claim expects of a handler: the error's own status when
    it carries one, 500 otherwise. *)
Definition expected_status (err : js_error) : Z := default 500 (err_status err).

(** The handlers built on [err.status || 500], by line. *)
Definition uses_err_status (h : error_handler) : bool :=
  bool_decide (source_line h ∈ [73; 120; 161]%nat).

(** A handler sends one response, and with the given status. *)
Definition answers_with (h : error_handler) (status : js_error -> Z) : Prop :=
  forall (err : js_error) (w : world),
    count_calls is_send (calls (handle h err w)) = 1%nat /\
    exists body : json,
      sent (res (final (handle h err w))) =
        (sent (res w) ++ [(status err, body)])%list.

(** A process started with [NODE_ENV=production]. *)
Definition production_env : ProcessEnv := {| NODE_ENV := Some "production" |}.

(** [class AppError extends Error]: [super(message)] sets the message and
    the platform captures the stack; the constructor adds [status]. *)
Definition AppError (message : string) (status : Z) (stack : string)
    : js_error :=
  JsError (Some status) (Some message) (Some stack) None.

(** [new AppError('User not found', 404)], line 114. *)
Definition user_not_found : js_error :=
  AppError "User not found" 404 "Error: User not found".

(** ** The User schemas and documents of the database samples *)

Inductive schema_type : Type := SchemaString | SchemaNumber.

(** One path of a Mongoose schema: [name: String] is the short form of
    [name: { type: String }]. *)
Record schema_path : Type := SchemaPath {
  path_type : schema_type;
  path_required : bool;
  path_unique : bool
}.

Definition short_form (t : schema_type) : schema_path := SchemaPath t false false.

(** Databases/crud.operations.md line 65, "Example: Creating a Document". *)
Definition crud_create_userSchema : gmap string schema_path :=
  {[ "name" := short_form SchemaString;
     "email" := short_form SchemaString;
     "age" := short_form SchemaNumber ]}.

(** Databases/crud.operations.md line 213, "Example: Performing CRUD
    Operations". *)
Definition crud_example_userSchema : gmap string schema_path :=
  {[ "name" := short_form SchemaString;
     "email" := short_form SchemaString;
     "age" := short_form SchemaNumber ]}.

(** "Database Connection in Express.js" (unnamed/part_006 line 82). *)
Definition connection_userSchema : gmap string schema_path :=
  {[ "name" := SchemaPath SchemaString true false;
     "email" := SchemaPath SchemaString true true;
     "age" := short_form SchemaNumber ]}.

(** "What is Express.js?", section "Integration with Databases"
    (unnamed/part_000 line 215). *)
Definition intro_UserSchema : gmap string schema_path :=
  {[ "name" := short_form SchemaString;
     "email" := short_form SchemaString ]}.

(** [new User({ name: 'John Doe', email: 'john@example.com', age: 30 })],
    crud.operations.md line 75. *)
Definition crud_create_user : gmap string json :=
  {[ "name" := JStr "John Doe";
     "email" := JStr "john@example.com";
     "age" := JNum 30 ]}.

(** [new User({ name: 'Alice', email: 'alice@example.com', age: 25 })],
    crud.operations.md line 222. *)
Definition crud_example_user : gmap string json :=
  {[ "name" := JStr "Alice";
     "email" := JStr "alice@example.com";
     "age" := JNum 25 ]}.

(** [new User({ name: 'John Doe', email: 'john@example.com' })],
    unnamed/part_000 line 225. *)
Definition intro_user : gmap string json :=
  {[ "name" := JStr "John Doe";
     "email" := JStr "john@example.com" ]}.

(** The User schemas of the database samples. *)
Definition user_schemas : list (gmap string schema_path) :=
  [crud_create_userSchema; crud_example_userSchema; connection_userSchema;
   intro_UserSchema].

(** [const { username, password } = req.body;
    new User({ username, password })], the register route of
    crud.operations.md line 824: an object with the two properties, each
    with what the request body has under that name, [undefined] when it
    has nothing. *)
Definition register_user (body : gmap string json)
    : gmap string (option json) :=
  {[ "username" := body !! "username";
     "password" := body !! "password" ]}.

(** The properties of the User documents that the samples of
    crud.operations.md and of the introduction construct from an object
    literal, in file order; the register route for a given request body. *)
Definition user_document_fields (body : gmap string json)
    : list (gset string) :=
  [dom crud_create_user; dom crud_example_user; dom (register_user body);
   dom intro_user].

(** The shape the claim names: name (String), email (String), age (Number). *)
Definition user_shape : gmap string schema_type :=
  {[ "name" := SchemaString; "email" := SchemaString; "age" := SchemaNumber ]}.

(** The fields of a schema with their types. *)
Definition shape_of (s : gmap string schema_path) : gmap string schema_type :=
  path_type <$> s.

(** ** The modules of the Workouts application and what they require *)

(** A path as its segments, root first. *)
Definition path : Type := list string.

(** A module: where it is, the bindings it gets from [require] with their
    specifiers, and the binding it assigns to [module.exports]. *)
Record source_file : Type := SourceFile {
  file_path : path;
  requires : list (string * string);
  exported : option string
}.

Definition auth_js : source_file :=
  SourceFile ["Workouts"; "middleware"; "auth.js"]
    [("jwt", "jsonwebtoken")]
    (Some "verifyToken").

Definition date_js : source_file :=
  SourceFile ["Workouts"; "middleware"; "date.js"]
    []
    (Some "printDate").

(** The router module (unnamed/part_008 line 180). Its first line names it
    profile.router.js; the server requires it as [./router/profile.router]
    and it requires [../middleware/auth], which places it in
    Workouts/router. *)
Definition profile_router_js : source_file :=
  SourceFile ["Workouts"; "router"; "profile.router.js"]
    [("express", "express"); ("verifyToken", "../middleware/auth")]
    (Some "router").

(** The server module (unnamed/part_008 line 196). It requires
    [./middleware/date], which places it in Workouts; its own name is not
    recorded and is a parameter. *)
Definition server_js (name : string) : source_file :=
  SourceFile ["Workouts"; name]
    [("express", "express"); ("path", "path");
     ("printDate", "./middleware/date");
     ("profileRouter", "./router/profile.router")]
    None.

Definition workouts_modules (server_name : string) : list source_file :=
  [auth_js; date_js; profile_router_js; server_js server_name].

(** [require] with a specifier that starts with [./] or [../] names a file
    relative to the requiring module; any other specifier names a package
    or a core module. *)
Definition is_relative (spec : string) : bool :=
  String.prefix "./" spec || String.prefix "../" spec.

(** Walk the segments of a specifier from a directory, kept innermost
    first: [.] stays, [..] goes up. *)
Fixpoint normalize (stack : list string) (segments : list string) : path :=
  match segments with
  | [] => rev stack
  | seg :: rest =>
      if String.eqb seg "." || String.eqb seg "" then normalize stack rest
      else if String.eqb seg ".." then normalize (tail stack) rest
      else normalize (seg :: stack) rest
  end.

Definition directory (p : path) : path := removelast p.

Definition with_extension (p : path) (ext : string) : path :=
  match reverse p with
  | [] => []
  | last :: init => (reverse init ++ [String.append last ext])%list
  end.

(** The files Node tries for a resolved path, in order. *)
Definition candidates (p : path) : list path :=
  [p; with_extension p ".js"; with_extension p ".json";
   with_extension p ".node"; (p ++ ["index.js"])%list;
   (p ++ ["index.json"])%list; (p ++ ["index.node"])%list].

(** The module of [modules] that [require(spec)], called in [from], loads. *)
Definition require_target (modules : list source_file) (from : source_file)
    (spec : string) : option source_file :=
  if is_relative spec then
    let p := normalize (reverse (directory (file_path from)))
                       (split "/"%char spec) in
    head (omap (fun c =>
                  List.find (fun m => bool_decide (file_path m = c)) modules)
               (candidates p))
  else None.

(** The modules of [modules] that [from] requires, with the binding each
    is given. *)
Definition imports (modules : list source_file) (from : source_file)
    : list (string * source_file) :=
  omap (fun r => pair (fst r) <$> require_target modules from (snd r))
       (requires from).

(** No module of [modules] loads another one. *)
Definition self_contained (modules : list source_file) : Prop :=
  forall f : source_file, f ∈ modules -> imports modules f = [].

(** *** profile.router.js: the protected route *)

(** Express runs a handler inside its own [try]: to the middleware that
    called [next()], the call returns. *)
Definition layer (handler : M unit) : Continuation :=
  {| next_k := fun w => (Normal tt, final (handler w)) |}.

(** The handler of [router.get("/profile", verifyToken, ...)]. *)
Definition profile_handler : M unit :=
  fun w =>
    res_json (object [("message", Some (JStr "Profile data"));
                      ("user", user (req w))]) w.

(** [GET /profile]: [verifyToken], the export of auth.js, then the handler. *)
Definition profile_route `{Jsonwebtoken} : M unit :=
  @verifyToken _ (layer profile_handler).

(** ** Optimization/concurrency.clustering.md: the cluster sample *)

(** The calls a program can make on the cluster module, on a worker, on
    the process, on an Express application and on the console. The sample
    makes the first five; [cluster.on('exit', ...)] carries its listener,
    [app.get] the text its handler sends and [app.listen] its callback. *)
#[warnings="-register-all"]
Inductive cluster_call : Type :=
  | fork_call
  | on_exit_call (listener : nat -> list cluster_call)
  | app_get_call (route : string) (reply : string)
  | app_listen_call (port : Z) (callback : list cluster_call)
  | log_call (line : string)
  | worker_kill_call (pid : nat)
  | worker_disconnect_call (pid : nat)
  | worker_send_call (pid : nat) (message : json)
  | process_exit_call (code : Z)
  | set_timeout_call (delay : Z) (callback : list cluster_call).

(** [for (let i = 0; i < numCPUs; i++) { cluster.fork(); }]; the loop
    variable only grows, so [numCPUs] rounds are enough fuel. *)
Fixpoint fork_loop (fuel i numCPUs : nat) : list cluster_call :=
  match fuel with
  | O => []
  | S fuel' =>
      if (i <? numCPUs)%nat then fork_call :: fork_loop fuel' (S i) numCPUs
      else []
  end.












(** ** Which source loads which module *)





(** ** The server module of the Workouts application
       (unnamed/part_008, line 196) *)

(** What routing looks at in an incoming request. *)
Record request_line : Type := RequestLine {
  req_method : string;
  req_path : string
}.

(** What the server takes from Express beyond [res.status], [res.json] and
    [res.send]: how a route path matches a request path, and what Express
    does with a request that no layer of the application ended.
    [res_render] and [res_sendFile] stand for all that a call of
    [res.render] or [res.sendFile] leads to: the page when the view or
    file is there, and otherwise what Express does with the error the
    call passes to [next]. Nothing is said below about the two routes
    that use them. [answer_options] is what becomes of an OPTIONS request,
    which Express routers may answer by themselves with the methods of
    the routes whose path matches. [res_send_number] is [res.send] with a
    number for argument, which Express 4 takes for a status code. *)
Class Express : Type := {
  path_matches : string -> string -> bool;
  res_render : string -> M unit;
  res_sendFile : path -> M unit;
  finalhandler : request_line -> M unit;
  answer_options : request_line -> M unit;
  res_send_number : Z -> M unit
}.

(** [__dirname] of the server module. *)
Class NodeModule : Type := { __dirname : path }.

(** A route registered with [.get] serves GET and, as Express has it, HEAD. *)
Definition handles_get (method : string) : bool :=
  String.eqb method "GET" || String.eqb method "HEAD".

(** One entry of the application's stack: the requests it applies to and
    the function it runs, given its [next]. *)
Record app_layer : Type := AppLayer {
  applies : request_line -> bool;
  run : request_line -> Continuation -> M unit
}.

(** Express walks the stack in registration order: the first layer that
    applies runs, with the rest of the stack as its [next]; [done] is what
    happens past the last layer. This is the walk for every method but
    OPTIONS. *)
Fixpoint dispatch (stack : list app_layer) (rq : request_line)
    (done : M unit) : M unit :=
  match stack with
  | [] => done
  | l :: rest =>
      if applies l rq then run l rq (layer (dispatch rest rq done))
      else dispatch rest rq done
  end.

(** [app.get(route, handler)] *)
Definition app_get `{Express} (route : string)
    (handler : Continuation -> M unit) : app_layer :=
  AppLayer
    (fun rq => handles_get (req_method rq) && path_matches route (req_path rq))
    (fun _ => handler).

(** [app.use(handler)]: every request. *)
Definition app_use (handler : Continuation -> M unit) : app_layer :=
  AppLayer (fun _ => true) (fun _ => handler).

(** [app.use("/", router)]: every request goes through the router's own
    stack; past its last layer the router hands over to the [next] of the
    application. *)
Definition app_use_router (router : list app_layer) : app_layer :=
  AppLayer (fun _ => true)
    (fun rq K =>
       dispatch router rq
         (fun w => Result (fst (@next_k K w)) (snd (@next_k K w)) [])).

(** profile.router.js: [router.get("/profile", verifyToken, ...)]. *)
Definition profile_router `{Jsonwebtoken} `{Express} : list app_layer :=
  [app_get "/profile" (fun _ => profile_route)].

(** [app.get("/", ...)] *)
Definition home : M unit := res_send (JStr "<h1>Home</h1>").

(** [app.get("/contact", ...)] *)
Definition contact : M unit := res_json (JStr "Contact").

(** [app.get("/about", ...)] *)
Definition about `{Express} : M unit := res_render "about".

(** [app.get("/blog", ...)]: [path.join(__dirname, "views", "blog.html")]. *)
Definition blog `{Express} `{NodeModule} : M unit :=
  res_sendFile (__dirname ++ ["views"; "blog.html"])%list.

(** [app.get("*", ...)] *)
Definition not_found : M unit :=
  res_status 404;;
  res_send (JStr "<h1>404</h1>").

(** The page routes of the server, in the order of its [app.get] calls. *)
Definition pages `{Express} `{NodeModule} : list app_layer :=
  [ app_get "/" (fun _ => home);
    app_get "/contact" (fun _ => contact);
    app_get "/about" (fun _ => about);
    app_get "/blog" (fun _ => blog);
    app_get "*" (fun _ => not_found) ].

(** The stack of the server: the router is mounted first, [printDate]
    after it, the page routes last. *)
Definition app `{Jsonwebtoken} `{Clock} `{Express} `{NodeModule}
    : list app_layer :=
  app_use_router profile_router ::
  app_use (fun K => @printDate _ K) ::
  pages.

(** The server on one request. *)
Definition server `{Jsonwebtoken} `{Clock} `{Express} `{NodeModule}
    (rq : request_line) : M unit :=
  if String.eqb (req_method rq) "OPTIONS" then answer_options rq
  else dispatch app rq (finalhandler rq).

(** The world after [printDate] wrote its line. *)
Definition dated `{Clock} (w : world) : world :=
  World (req w) (res w)
    (console w ++ [toLocaleTimeString ++ ", " ++ toLocaleDateString]).

(** An Express that matches a route path literally, and [*] always. *)
Definition fixture_express : Express :=
  {| path_matches route p := String.eqb route "*" || String.eqb route p;
     res_render view := res_send (JStr ("<!-- " ++ view ++ " -->"));
     res_sendFile file := res_send (JStr (String.concat "/" file));
     finalhandler rq :=
       res_status 404;;
       res_send (JStr ("Cannot " ++ req_method rq ++ " " ++ req_path rq));
     answer_options rq := res_send (JStr "GET,HEAD");
     res_send_number status :=
       res_status status;;
       res_send (JStr "") |}.

Definition fixture_module : NodeModule := {| __dirname := ["Workouts"] |}.

(** What the profile route answers: 403 without a truthy header, 401 when
    [jwt.verify] throws on the second segment, the profile otherwise. *)
Definition profile_answer `{Jsonwebtoken} (w : world) : Z * json :=
  match headers (req w) !! "authorization" with
  | Some h =>
      if String.eqb h "" then (403, message "Access denied, token missing")
      else
        match jwt_verify (split space h !! 1%nat) SECRET_KEY with
        | Normal decoded =>
            (statusCode (res w),
             JObj [("message", JStr "Profile data"); ("user", decoded)])
        | Thrown _ => (401, message "Invalid token")
        end
  | None => (403, message "Access denied, token missing")
  end.

(** ** Error-Handling/centralized.handling.md: routes that forward an
       asynchronous error *)

(** [someAsyncOperation()]: the promise resolves with a value or rejects. *)
Class AsyncOperation : Type := { someAsyncOperation : completion json }.

Definition await `{AsyncOperation} : M json :=
  fun w => Result someAsyncOperation w [].

(** [res.send(value)] for a value of any kind. *)
Definition res_send_value `{Express} (value : json) : M unit :=
  match value with
  | JNum n => res_send_number n
  | _ => res_send value
  end.

(** Line 286: [someAsyncOperation().then(result => res.send(result))
    .catch(error => next(error))]; [next_with] is where [next(error)]
    leads. *)
Definition async_error_route `{AsyncOperation} `{Express}
    (next_with : js_exn -> M unit) : M unit :=
  try_catch (await ≫= fun result => res_send_value result)
            (fun error => next_with error).

(** Line 301: the same route with [async]/[await] and [try]/[catch]. *)
Definition async_await_route `{AsyncOperation} `{Express}
    (next_with : js_exn -> M unit) : M unit :=
  try_catch
    (result ← await;
     res_send_value result)
    (fun error => next_with error).

(** ** Databases/crud.operations.md, "Modular Routing": routes/admin.js *)

(** [value.key]: the property of an object, [undefined] on anything else
    and when the object has no such property; of two entries with the same
    key the later one counts. *)
Definition get_prop (value : json) (key : string) : option json :=
  match value with
  | JObj fields =>
      last (snd <$> List.filter (fun p => String.eqb (fst p) key) fields)
  | _ => None
  end.

(** [req.user && req.user.isAdmin] as a condition. *)
Definition is_admin (w : world) : bool :=
  match user (req w) with
  | Some u =>
      json_truthy u &&
      match get_prop u "isAdmin" with
      | Some flag => json_truthy flag
      | None => false
      end
  | None => false
  end.

(** Line 426. *)
Definition checkAdmin `{Continuation} : M unit :=
  fun w =>
    if is_admin w then call_next w
    else (res_status 403;;
          res_send (JStr "Permission denied")) w.

(** Line 435: [router.get('/dashboard', checkAdmin, ...)]. *)
Definition dashboard_handler : M unit :=
  res_send (JStr "Welcome to the admin dashboard").

Definition dashboard_route : M unit :=
  @checkAdmin (layer dashboard_handler).

(** ** Databases/crud.operations.md, "Passport.js Integration": the verify
       callback of the local strategy *)

(** The User model as the callback uses it: [User.findOne({ username })]
    resolves with a value (a user, or [null] when there is none) or
    rejects; [user.validPassword(password)] returns a value or throws. The
    callback tests both values for truthiness. *)
Class UserModel : Type := {
  findOne : string -> completion json;
  validPassword : json -> string -> completion json
}.

(** The call of [done] that ends the callback: [done(err)],
    [done(null, false, info)] or [done(null, user)]. *)
Inductive done_call : Type :=
  | done_error (err : js_exn)
  | done_false (info : json)
  | done_user (account : json).

(** Line 741. [done] is taken to return. *)
Definition local_verify `{UserModel} (username password : string) : done_call :=
  match findOne username with
  | Thrown err => done_error err
  | Normal account =>
      if negb (json_truthy account) then
        done_false (message "Incorrect username.")
      else
        match validPassword account password with
        | Thrown err => done_error err
        | Normal valid =>
            if negb (json_truthy valid) then
              done_false (message "Incorrect password.")
            else done_user account
        end
  end.

(** An operation that resolves with a page of text. *)
Definition fixture_operation : AsyncOperation :=
  {| someAsyncOperation := Normal (JStr "done") |}.

(** ** Proof automation *)

(** Unfold a middleware down to the state transformer it denotes. *)
Ltac run_m :=
  unfold verifyToken, printDate, try_catch, second_segment, call_jwt_verify,
    call_next, set_user, res_status, res_json, res_send, console_log,
    console_error, get_header, throw, mbind, M_bind, mret, M_ret;
  simpl.

(** Discharge the side condition of the lemmas that skip the server module. *)
Ltac candidate_lengths :=
  cbn [requires server_js auth_js date_js profile_router_js];
  repeat (apply List.Forall_cons;
          [intros Hrel; first
             [discriminate Hrel
             |repeat (apply List.Forall_cons; [simpl; lia|]);
              apply List.Forall_nil]|]);
  apply List.Forall_nil.

(** * Properties *)

(** ** Strings *)

Lemma split_nonempty (c : ascii) (s : string) : split c s <> [].
Proof.
  destruct s as [|a s]; simpl; [discriminate|].
  destruct (Ascii.eqb a c); [discriminate|].
  destruct (split c s); discriminate.
Qed.

(** The first segment is what precedes the first separator. *)
Lemma split_head (c : ascii) (s : string) :
  head (split c s) = Some (before_first c s).
Proof.
  induction s as [|a s IH]; simpl; [reflexivity|].
  destruct (Ascii.eqb a c); [reflexivity|].
  destruct (split c s) as [|seg rest]; simpl in *; congruence.
Qed.

(** The remaining segments are the segments of what follows it. *)
Lemma split_tail (c : ascii) (s : string) :
  tail (split c s) = from_option (split c) [] (after_first c s).
Proof.
  induction s as [|a s IH]; simpl; [reflexivity|].
  destruct (Ascii.eqb a c); [reflexivity|].
  destruct (split c s) as [|seg rest] eqn:E; simpl in *; [|assumption].
  now destruct (split_nonempty c s).
Qed.

(** [s.split(" ")[1]] is the segment after the first space. *)
Lemma split_second (s : string) :
  split space s !! 1%nat = segment_after_first_space s.
Proof.
  unfold segment_after_first_space.
  transitivity (head (tail (split space s))).
  { destruct (split space s) as [|? [|? ?]]; reflexivity. }
  rewrite split_tail.
  destruct (after_first space s) as [t|]; simpl; [apply split_head|reflexivity].
Qed.

Lemma after_first_none (c : ascii) (s : string) :
  contains c s = false -> after_first c s = None.
Proof.
  induction s as [|a s IH]; simpl; [reflexivity|].
  destruct (Ascii.eqb a c); simpl; [discriminate|exact IH].
Qed.

Lemma after_first_some (c : ascii) (s t : string) :
  after_first c s = Some t -> contains c s = true.
Proof.
  induction s as [|a s IH]; simpl; [discriminate|].
  destruct (Ascii.eqb a c); simpl; [reflexivity|exact IH].
Qed.

(** A header value without a space has no second segment. *)
Lemma split_second_no_space (s : string) :
  contains space s = false -> split space s !! 1%nat = None.
Proof.
  intros Hs. rewrite split_second. unfold segment_after_first_space.
  now rewrite (after_first_none _ _ Hs).
Qed.

Lemma truthy_false (v : option string) :
  truthy v = false <-> v = None \/ v = Some "".
Proof.
  destruct v as [s|]; simpl.
  - rewrite negb_false_iff, String.eqb_eq. split.
    + intros ->. now right.
    + intros [|[= ->]]; [discriminate|reflexivity].
  - split; [now left|reflexivity].
Qed.

Lemma truthy_true (v : option string) :
  truthy v = true <-> exists s, v = Some s /\ s <> "".
Proof.
  destruct v as [s|]; simpl.
  - rewrite negb_true_iff, String.eqb_neq. split.
    + intros Hs. now exists s.
    + now intros (? & [= <-] & Hs).
  - split; [discriminate|]. now intros (? & ? & _).
Qed.

(** ** The two middleware modules *)

Section Middleware.
Context {J : Jsonwebtoken} {K : Continuation} {C : Clock}.

(** The path of [verifyToken] without a usable header. *)
Lemma verifyToken_refuses (w : world) :
  truthy (headers (req w) !! "authorization") = false ->
  verifyToken w =
    Result (Normal tt)
      (answered w 403 (message "Access denied, token missing"))
      [res_status_call 403;
       res_json_call (message "Access denied, token missing")].
Proof. intros Hh. run_m. rewrite Hh. reflexivity. Qed.

(** The path of [verifyToken] when [jwt.verify] throws. *)
Lemma verifyToken_rejects (w : world) (h : string) (e : js_exn) :
  headers (req w) !! "authorization" = Some h -> h <> "" ->
  jwt_verify (split space h !! 1%nat) SECRET_KEY = Thrown e ->
  verifyToken w =
    Result (Normal tt) (answered w 401 (message "Invalid token"))
      [jwt_verify_call (split space h !! 1%nat) SECRET_KEY;
       res_status_call 401; res_json_call (message "Invalid token")].
Proof.
  intros Hh Hne Hv. run_m. rewrite Hh. simpl.
  apply String.eqb_neq in Hne. rewrite Hne. simpl. rewrite Hv. reflexivity.
Qed.

(** The path of [verifyToken] when the token verifies and [next]
    returns. *)
Lemma verifyToken_accepts (w : world) (h : string) (decoded : json) :
  headers (req w) !! "authorization" = Some h -> h <> "" ->
  jwt_verify (split space h !! 1%nat) SECRET_KEY = Normal decoded ->
  fst (next_k (authenticated w decoded)) = Normal tt ->
  verifyToken w =
    Result (Normal tt) (snd (next_k (authenticated w decoded)))
      [jwt_verify_call (split space h !! 1%nat) SECRET_KEY; next_call].
Proof.
  intros Hh Hne Hv Hk. run_m. rewrite Hh. simpl.
  apply String.eqb_neq in Hne. rewrite Hne. simpl. rewrite Hv. simpl.
  unfold authenticated in Hk. rewrite Hk. reflexivity.
Qed.

(** The path of [verifyToken] when the token verifies and [next] throws:
    the [catch] written for [jwt.verify] answers. *)
Lemma verifyToken_next_throws (w : world) (h : string) (decoded : json)
    (e : js_exn) :
  headers (req w) !! "authorization" = Some h -> h <> "" ->
  jwt_verify (split space h !! 1%nat) SECRET_KEY = Normal decoded ->
  fst (next_k (authenticated w decoded)) = Thrown e ->
  verifyToken w =
    Result (Normal tt)
      (answered (snd (next_k (authenticated w decoded))) 401
         (message "Invalid token"))
      [jwt_verify_call (split space h !! 1%nat) SECRET_KEY; next_call;
       res_status_call 401; res_json_call (message "Invalid token")].
Proof.
  intros Hh Hne Hv Hk. run_m. rewrite Hh. simpl.
  apply String.eqb_neq in Hne. rewrite Hne. simpl. rewrite Hv. simpl.
  unfold authenticated in Hk. rewrite Hk. reflexivity.
Qed.

(** [printDate] on any request. *)
Lemma printDate_run (w : world) :
  let line := toLocaleTimeString ++ ", " ++ toLocaleDateString in
  let logged := World (req w) (res w) (console w ++ [line]) in
  printDate w =
    Result (fst (next_k logged)) (snd (next_k logged))
      [console_log_call line; next_call].
Proof. reflexivity. Qed.

(** Every request takes one of the four paths of [verifyToken]. *)
Lemma verifyToken_paths (w : world) : verifyToken_path w (verifyToken w).
Proof.
  destruct (truthy (headers (req w) !! "authorization")) eqn:Ht.
  - apply truthy_true in Ht as (h & Hh & Hne).
    destruct (jwt_verify (split space h !! 1%nat) SECRET_KEY)
      as [decoded|e] eqn:Hv.
    + destruct (fst (next_k (authenticated w decoded))) as [[]|e] eqn:Hk.
      * rewrite (verifyToken_accepts w h decoded) by assumption.
        now apply path_accepted.
      * rewrite (verifyToken_next_throws w h decoded e) by assumption.
        now apply (path_next_threw w h decoded e).
    + rewrite (verifyToken_rejects w h e) by assumption.
      now apply (path_rejected w h e).
  - rewrite verifyToken_refuses by assumption. now apply path_refused.
Qed.
End Middleware.

(** ** Claims about the middleware *)

Section MiddlewareClaims.
Context {J : Jsonwebtoken} {K : Continuation} {C : Clock}.

(** C3. A request without a truthy authorization header (absent, or the
    empty string) is answered by [verifyToken] with status 403 and the
    body [{ message: "Access denied, token missing" }]; [jwt.verify] is
    not called, [req] (so [req.user]) is left as it was, and [next] is
    not called. *)
Theorem verifyToken_token_missing (w : world) :
  headers (req w) !! "authorization" = None \/
  headers (req w) !! "authorization" = Some "" ->
  calls (verifyToken w) =
    [res_status_call 403;
     res_json_call (message "Access denied, token missing")] /\
  sent (res (final (verifyToken w))) =
    (sent (res w) ++ [(403, message "Access denied, token missing")])%list /\
  count_calls is_verify (calls (verifyToken w)) = 0%nat /\
  req (final (verifyToken w)) = req w /\
  count_calls is_next (calls (verifyToken w)) = 0%nat.
Proof.
  intros Hh. apply truthy_false in Hh.
  rewrite (verifyToken_refuses w Hh). unfold count_calls. simpl. repeat split.
Qed.

(** C4, amended. [verifyToken] verifies the second space-separated
    segment of the header. When [jwt.verify(undefined, key)] throws, a
    request whose authorization header is not empty and has no space gets
    [undefined] passed to [jwt.verify], status 401 with
    [{ message: "Invalid token" }], an unchanged [req], and no call of
    [next], whatever the library thinks of the header value itself.
    [next] is called only when the segment after the first space
    verifies against the secret key, and [req.user] is then the decoded
    payload. *)
Theorem verifyToken_second_segment :
  rejects_undefined J ->
  (forall (w : world) (h : string),
      headers (req w) !! "authorization" = Some h -> h <> "" ->
      contains space h = false ->
      calls (verifyToken w) =
        [jwt_verify_call None SECRET_KEY; res_status_call 401;
         res_json_call (message "Invalid token")] /\
      final (verifyToken w) = answered w 401 (message "Invalid token") /\
      count_calls is_next (calls (verifyToken w)) = 0%nat) /\
  (forall w : world,
      (0 < count_calls is_next (calls (verifyToken w)))%nat ->
      exists (h seg : string) (decoded : json),
        headers (req w) !! "authorization" = Some h /\
        segment_after_first_space h = Some seg /\
        jwt_verify (Some seg) SECRET_KEY = Normal decoded /\
        head (calls (verifyToken w)) =
          Some (jwt_verify_call (Some seg) SECRET_KEY) /\
        user (req (authenticated w decoded)) = Some decoded /\
        (final (verifyToken w) = snd (next_k (authenticated w decoded)) \/
         final (verifyToken w) =
           answered (snd (next_k (authenticated w decoded))) 401
             (message "Invalid token"))).
Proof.
  intros Hlib. split.
  - intros w h Hh Hne Hsp.
    pose proof (split_second_no_space h Hsp) as Hseg.
    destruct (Hlib SECRET_KEY) as [e He].
    rewrite (verifyToken_rejects w h e Hh Hne) by (rewrite Hseg; exact He).
    rewrite Hseg. unfold count_calls. simpl. repeat split.
  - intros w Hnext.
    destruct (verifyToken_paths w) as [Ht|h e Hh Hne Hv|h d Hh Hne Hv Hk|h d e Hh Hne Hv Hk];
      unfold count_calls in Hnext; simpl in Hnext; try lia.
    + rewrite split_second in Hv.
      destruct (segment_after_first_space h) as [seg|] eqn:Hseg.
      * exists h, seg, d. simpl. rewrite split_second, Hseg. auto 10.
      * destruct (Hlib SECRET_KEY) as [e He]. congruence.
    + rewrite split_second in Hv.
      destruct (segment_after_first_space h) as [seg|] eqn:Hseg.
      * exists h, seg, d. simpl. rewrite split_second, Hseg. auto 10.
      * destruct (Hlib SECRET_KEY) as [e' He]. congruence.
Qed.

(** C5. With a [next] that returns to its caller, as the one Express
    hands out does, each middleware of Workouts/middleware returns, and on
    every request it either calls [next] exactly once and sends nothing,
    or sends exactly one response and does not call [next]. *)
Theorem middleware_pipeline_contract (f : M unit) (w : world) :
  returns_to_caller K ->
  f ∈ workouts_middleware ->
  outcome (f w) = Normal tt /\
  (count_calls is_next (calls (f w)) = 1%nat /\
   count_calls is_send (calls (f w)) = 0%nat \/
   count_calls is_next (calls (f w)) = 0%nat /\
   count_calls is_send (calls (f w)) = 1%nat).
Proof.
  intros Hk Hf. unfold workouts_middleware in Hf.
  apply elem_of_cons in Hf as [->|Hf].
  - destruct (verifyToken_paths w) as [Ht|h e Hh Hne Hv|h d Hh Hne Hv Hk'|h d e Hh Hne Hv Hk'];
      unfold count_calls; simpl; auto.
    rewrite Hk in Hk'. discriminate.
  - apply list_elem_of_singleton in Hf as ->.
    rewrite printDate_run. unfold count_calls. simpl. rewrite Hk. auto.
Qed.

(** C7. On every request [printDate] calls [next] exactly once, after
    one [console.log] of the time and the date; [next] receives the
    request and the response as [printDate] got them, and [printDate]
    does nothing after [next]. *)
Theorem printDate_frame (w : world) :
  let line := toLocaleTimeString ++ ", " ++ toLocaleDateString in
  let handed_on := World (req w) (res w) (console w ++ [line]) in
  calls (printDate w) = [console_log_call line; next_call] /\
  count_calls is_next (calls (printDate w)) = 1%nat /\
  req handed_on = req w /\ res handed_on = res w /\
  outcome (printDate w) = fst (next_k handed_on) /\
  final (printDate w) = snd (next_k handed_on).
Proof. rewrite printDate_run. unfold count_calls. simpl. repeat split. Qed.

(** C1, amended. [printDate] is straight-line: on every request it calls
    [console.log] and then [next]. [verifyToken] is not a wrapper around
    one call. Its own test of the authorization header chooses: without a
    truthy header it answers 403 by itself and calls no library; with one
    it calls [jwt.verify] on the second segment. Its [try]/[catch] then
    chooses: when [jwt.verify] returns it calls [next], when [jwt.verify]
    throws it answers 401 instead, and when [next] throws it answers 401
    as well. *)
Theorem middleware_paths :
  straight_line printDate /\
  (forall w : world,
      calls (printDate w) =
        [console_log_call (toLocaleTimeString ++ ", " ++ toLocaleDateString);
         next_call]) /\
  (forall w : world,
      calls (verifyToken w) =
        match headers (req w) !! "authorization" with
        | Some h =>
            if String.eqb h "" then
              [res_status_call 403;
               res_json_call (message "Access denied, token missing")]
            else
              jwt_verify_call (split space h !! 1%nat) SECRET_KEY ::
              match jwt_verify (split space h !! 1%nat) SECRET_KEY with
              | Thrown _ =>
                  [res_status_call 401;
                   res_json_call (message "Invalid token")]
              | Normal decoded =>
                  match fst (next_k (authenticated w decoded)) with
                  | Normal _ => [next_call]
                  | Thrown _ =>
                      [next_call; res_status_call 401;
                       res_json_call (message "Invalid token")]
                  end
              end
        | None =>
            [res_status_call 403;
             res_json_call (message "Access denied, token missing")]
        end).
Proof.
  split; [|split].
  - intros w1 w2. reflexivity.
  - intros w. reflexivity.
  - intros w.
    destruct (verifyToken_paths w) as [Ht|h e Hh Hne Hv|h d Hh Hne Hv Hk|h d e Hh Hne Hv Hk].
    + apply truthy_false in Ht as [->| ->]; reflexivity.
    + apply String.eqb_neq in Hne. now rewrite Hh, Hne, Hv.
    + apply String.eqb_neq in Hne. now rewrite Hh, Hne, Hv, Hk.
    + apply String.eqb_neq in Hne. now rewrite Hh, Hne, Hv, Hk.
Qed.

(** C2, amended. [verifyToken] tells two failures apart and no more. A
    request without a truthy authorization header is answered with 403
    and "Access denied, token missing", and neither [jwt.verify] nor
    [next] is called. A request with one, on which [jwt.verify] throws, is
    answered with 401 and "Invalid token" whatever was thrown, and [next]
    is not called. When [jwt.verify] returns, [next] is called once and
    [verifyToken] answers nothing itself unless [next] throws, which it
    answers with the same 401. It never sets another status nor sends
    another body. [printDate] never answers. *)
Theorem verifyToken_failure_modes (w : world) :
  match headers (req w) !! "authorization" with
  | Some h =>
      if String.eqb h "" then
        sent (res (final (verifyToken w))) =
          (sent (res w) ++ [(403, message "Access denied, token missing")])%list /\
        count_calls is_verify (calls (verifyToken w)) = 0%nat /\
        count_calls is_next (calls (verifyToken w)) = 0%nat
      else
        match jwt_verify (split space h !! 1%nat) SECRET_KEY with
        | Thrown _ =>
            sent (res (final (verifyToken w))) =
              (sent (res w) ++ [(401, message "Invalid token")])%list /\
            count_calls is_next (calls (verifyToken w)) = 0%nat
        | Normal decoded =>
            count_calls is_next (calls (verifyToken w)) = 1%nat /\
            match fst (next_k (authenticated w decoded)) with
            | Normal _ => count_calls is_send (calls (verifyToken w)) = 0%nat
            | Thrown _ =>
                sent (res (final (verifyToken w))) =
                  (sent (res (snd (next_k (authenticated w decoded)))) ++
                   [(401, message "Invalid token")])%list
            end
        end
  | None =>
      sent (res (final (verifyToken w))) =
        (sent (res w) ++ [(403, message "Access denied, token missing")])%list /\
      count_calls is_verify (calls (verifyToken w)) = 0%nat /\
      count_calls is_next (calls (verifyToken w)) = 0%nat
  end /\
  Forall (fun c =>
            match c with
            | res_status_call code => code = 403 \/ code = 401
            | res_json_call body =>
                body = message "Access denied, token missing" \/
                body = message "Invalid token"
            | res_send_call _ => False
            | _ => True
            end)
         (calls (verifyToken w)) /\
  count_calls is_send (calls (printDate w)) = 0%nat.
Proof.
  split; [|split; [|reflexivity]].
  - destruct (verifyToken_paths w) as [Ht|h e Hh Hne Hv|h d Hh Hne Hv Hk|h d e Hh Hne Hv Hk].
    + apply truthy_false in Ht as [->| ->]; unfold count_calls; simpl;
        repeat split.
    + apply String.eqb_neq in Hne. rewrite Hh, Hne, Hv.
      unfold count_calls. simpl. repeat split.
    + apply String.eqb_neq in Hne. rewrite Hh, Hne, Hv, Hk.
      unfold count_calls. simpl. repeat split.
    + apply String.eqb_neq in Hne. rewrite Hh, Hne, Hv, Hk.
      unfold count_calls. simpl. repeat split.
  - destruct (verifyToken_paths w) as [Ht|h e Hh Hne Hv|h d Hh Hne Hv Hk|h d e Hh Hne Hv Hk];
      simpl; repeat (apply List.Forall_cons; [auto|]); apply List.Forall_nil.
Qed.
End MiddlewareClaims.

(** A downstream handler that throws is no counter-example to the pipeline
    contract within Express, whose [next] returns; handed a [next] that
    throws, [verifyToken] has called it and then also answers 401. *)
Remark verifyToken_unshielded_next :
  let w := incoming {[ "authorization" := "Bearer valid.jwt.token" ]} in
  calls (@verifyToken fixture_jwt throwing_next w) =
    [jwt_verify_call (Some "valid.jwt.token") SECRET_KEY; next_call;
     res_status_call 401; res_json_call (message "Invalid token")].
Proof. reflexivity. Qed.

Lemma layer_returns (handler : M unit) : returns_to_caller (layer handler).
Proof. intros w. reflexivity. Qed.

Lemma fixture_jwt_rejects_undefined : rejects_undefined fixture_jwt.
Proof. intros key. eexists. reflexivity. Qed.

(** Witness of C3: a request that carries no authorization header. *)
Lemma verifyToken_token_missing_witness :
  let w := incoming {[ "host" := "localhost:8080" ]} in
  calls (@verifyToken fixture_jwt end_of_pipeline w) =
    [res_status_call 403;
     res_json_call (message "Access denied, token missing")] /\
  sent (res (final (@verifyToken fixture_jwt end_of_pipeline w))) =
    (sent (res w) ++ [(403, message "Access denied, token missing")])%list /\
  count_calls is_verify (calls (@verifyToken fixture_jwt end_of_pipeline w)) = 0%nat /\
  req (final (@verifyToken fixture_jwt end_of_pipeline w)) = req w /\
  count_calls is_next (calls (@verifyToken fixture_jwt end_of_pipeline w)) = 0%nat.
Proof.
  apply (@verifyToken_token_missing fixture_jwt end_of_pipeline).
  left. reflexivity.
Defined.

(** C4 as stated fails on the empty header value: it has no space, and the
    request is answered 403 without any call of [jwt.verify]. *)
Lemma verifyToken_empty_header_not_401 :
  ~ (forall (J : Jsonwebtoken) (K : Continuation) (w : world) (h : string),
        rejects_undefined J ->
        headers (req w) !! "authorization" = Some h ->
        contains space h = false ->
        calls (verifyToken w) =
          [jwt_verify_call None SECRET_KEY; res_status_call 401;
           res_json_call (message "Invalid token")]).
Proof.
  intros Hclaim.
  specialize (Hclaim fixture_jwt end_of_pipeline
                (incoming {[ "authorization" := "" ]}) ""
                fixture_jwt_rejects_undefined eq_refl eq_refl).
  vm_compute in Hclaim. discriminate Hclaim.
Qed.

(** Witness of C4: a bare valid token, without a scheme before it, is
    refused; the same token after "Bearer " is what let [next] be called. *)
Lemma verifyToken_second_segment_witness :
  let bare := incoming {[ "authorization" := "valid.jwt.token" ]} in
  let bearer := incoming {[ "authorization" := "Bearer valid.jwt.token" ]} in
  rejects_undefined fixture_jwt /\
  @jwt_verify fixture_jwt (Some "valid.jwt.token") SECRET_KEY =
    Normal (JObj [("id", JNum 1)]) /\
  (calls (@verifyToken fixture_jwt end_of_pipeline bare) =
     [jwt_verify_call None SECRET_KEY; res_status_call 401;
      res_json_call (message "Invalid token")] /\
   final (@verifyToken fixture_jwt end_of_pipeline bare) =
     answered bare 401 (message "Invalid token") /\
   count_calls is_next
     (calls (@verifyToken fixture_jwt end_of_pipeline bare)) = 0%nat) /\
  (0 < count_calls is_next
         (calls (@verifyToken fixture_jwt end_of_pipeline bearer)))%nat /\
  exists (h seg : string) (decoded : json),
    headers (req bearer) !! "authorization" = Some h /\
    segment_after_first_space h = Some seg /\
    @jwt_verify fixture_jwt (Some seg) SECRET_KEY = Normal decoded /\
    head (calls (@verifyToken fixture_jwt end_of_pipeline bearer)) =
      Some (jwt_verify_call (Some seg) SECRET_KEY) /\
    user (req (authenticated bearer decoded)) = Some decoded /\
    (final (@verifyToken fixture_jwt end_of_pipeline bearer) =
       snd (@next_k end_of_pipeline (authenticated bearer decoded)) \/
     final (@verifyToken fixture_jwt end_of_pipeline bearer) =
       answered (snd (@next_k end_of_pipeline (authenticated bearer decoded)))
         401 (message "Invalid token")).
Proof.
  pose proof (@verifyToken_second_segment fixture_jwt end_of_pipeline
                fixture_jwt_rejects_undefined) as [Hbare Hbearer].
  split; [exact fixture_jwt_rejects_undefined|]. split; [reflexivity|].
  split; [|split].
  - apply (Hbare (incoming {[ "authorization" := "valid.jwt.token" ]})
             "valid.jwt.token").
    + reflexivity.
    + discriminate.
    + reflexivity.
  - vm_compute. lia.
  - apply Hbearer. vm_compute. lia.
Defined.

(** Witness of C5: [verifyToken] in front of the profile handler, as
    profile.router.js mounts it. *)
Lemma middleware_pipeline_contract_witness :
  let w := incoming {[ "authorization" := "Bearer valid.jwt.token" ]} in
  let f := @verifyToken fixture_jwt (layer profile_handler) in
  returns_to_caller (layer profile_handler) /\
  outcome (f w) = Normal tt /\
  (count_calls is_next (calls (f w)) = 1%nat /\
   count_calls is_send (calls (f w)) = 0%nat \/
   count_calls is_next (calls (f w)) = 0%nat /\
   count_calls is_send (calls (f w)) = 1%nat).
Proof.
  split; [apply layer_returns|].
  apply (@middleware_pipeline_contract fixture_jwt (layer profile_handler)
           fixture_clock).
  - apply layer_returns.
  - unfold workouts_middleware. apply list_elem_of_here.
Defined.

(** C1 as stated fails on [verifyToken]: a request without the header and
    one with a valid bearer token take it through different calls. *)
Lemma verifyToken_not_straight_line :
  ~ straight_line (@verifyToken fixture_jwt end_of_pipeline).
Proof.
  intros Hclaim.
  specialize (Hclaim (incoming ∅)
                (incoming {[ "authorization" := "Bearer valid.jwt.token" ]})).
  vm_compute in Hclaim. discriminate Hclaim.
Qed.

(** C2 as stated fails on [verifyToken]: a missing token and a token that
    does not verify are refused with different status codes and
    messages. *)
Lemma verifyToken_distinguishes_failures :
  distinguishes_failures (@verifyToken fixture_jwt end_of_pipeline).
Proof.
  exists (incoming ∅), (incoming {[ "authorization" := "Bearer expired" ]}),
    (403, message "Access denied, token missing"),
    (401, message "Invalid token").
  repeat split; try reflexivity. discriminate.
Qed.

(** ** Error-handling samples *)

Section ErrorHandling.
Context {E : ProcessEnv}.

(** C6, amended. Each error-handling middleware of the two documents has
    the four parameters (err, req, res, next). The three built on
    [err.status || 500] (lines 73, 120, 161) answer with [err.status]
    when it is a number other than zero and with 500 otherwise; the
    other five answer with 500 whatever the error carries. *)
Theorem error_handlers_status :
  Forall (fun h => params h = ["err"; "req"; "res"; "next"]) error_handlers /\
  Forall (fun h =>
            answers_with h (fun err =>
              if uses_err_status h then or_status (err_status err) 500
              else 500))
         error_handlers /\
  (forall n : Z, n <> 0 -> or_status (Some n) 500 = n) /\
  or_status (Some 0) 500 = 500 /\
  or_status None 500 = 500.
Proof.
  split; [|split; [|split; [|split]]].
  - repeat constructor.
  - unfold error_handlers.
    repeat (apply List.Forall_cons;
            [intros err w; split; [reflexivity|eexists; reflexivity]|]).
    apply List.Forall_nil.
  - intros n Hn. unfold or_status. apply Z.eqb_neq in Hn. now rewrite Hn.
  - reflexivity.
  - reflexivity.
Qed.
End ErrorHandling.

(** C6 as stated fails on the basic handler of line 40: an error that
    carries status 404 is answered with 500. *)
Lemma basic_handler_ignores_err_status :
  ~ (forall (E : ProcessEnv) (h : error_handler),
        h ∈ error_handlers -> answers_with h expected_status).
Proof.
  intros Hclaim.
  destruct (Hclaim production_env _ (list_elem_of_here _ _) user_not_found
              (incoming ∅)) as [_ [body Hsent]].
  vm_compute in Hsent. discriminate Hsent.
Qed.

(** ** User schemas and documents *)

(** C8, amended. The User schemas of crud.operations.md (lines 65 and
    213) and of the database-connection document have exactly the fields
    name (String), email (String) and age (Number), and the two User
    documents of the MongoDB CRUD examples (crud.operations.md lines 75
    and 222) give a value to exactly those three. Not every User has that
    shape: the register route of crud.operations.md (line 824) builds its
    User from username and password, and the UserSchema of the
    introduction has only name and email, as has the document built
    there. *)
Theorem user_shape_of_database_samples :
  shape_of crud_create_userSchema = user_shape /\
  shape_of crud_example_userSchema = user_shape /\
  shape_of connection_userSchema = user_shape /\
  dom crud_create_user = dom user_shape /\
  dom crud_example_user = dom user_shape /\
  (forall body : gmap string json,
      dom (register_user body) = ({[ "username"; "password" ]} : gset string)) /\
  shape_of intro_UserSchema =
    {[ "name" := SchemaString; "email" := SchemaString ]} /\
  dom intro_user = ({[ "name"; "email" ]} : gset string).
Proof.
  repeat split; reflexivity.
Qed.

(** C8 as stated fails on the introduction's UserSchema, which has no age
    field. *)
Lemma intro_UserSchema_has_no_age :
  ~ (Forall (fun s => shape_of s = user_shape) user_schemas /\
     forall body : gmap string json,
       Forall (fun fields => fields = dom user_shape)
              (user_document_fields body)).
Proof.
  intros [Hschemas _].
  apply Forall_forall with (x := intro_UserSchema) in Hschemas.
  - assert (Hage : shape_of intro_UserSchema !! "age" = Some SchemaNumber)
      by (rewrite Hschemas; reflexivity).
    vm_compute in Hage. discriminate Hage.
  - unfold user_schemas. set_solver.
Qed.

(** ** The cluster sample *)







Lemma fork_loop_replicate (fuel i numCPUs : nat) :
  (numCPUs - i <= fuel)%nat ->
  fork_loop fuel i numCPUs = replicate (numCPUs - i) fork_call.
Proof.
  revert i. induction fuel as [|fuel IH]; intros i Hfuel; simpl.
  - now replace (numCPUs - i)%nat with 0%nat by lia.
  - destruct (Nat.ltb_spec i numCPUs) as [Hlt|Hge].
    + rewrite IH by lia.
      replace (numCPUs - i)%nat with (S (numCPUs - S i)) by lia. reflexivity.
    + now replace (numCPUs - i)%nat with 0%nat by lia.
Qed.


(** ** The module graph of the Workouts application *)

(** The server module sits directly in Workouts: a candidate that is not
    two segments long cannot be it, whatever its name. *)
Lemma find_skips_server (name : string) (c : path) :
  length c <> 2%nat ->
  List.find (fun m => bool_decide (file_path m = c)) (workouts_modules name) =
  List.find (fun m => bool_decide (file_path m = c))
            [auth_js; date_js; profile_router_js].
Proof.
  intros Hlen. unfold workouts_modules. simpl.
  repeat (case_bool_decide; [reflexivity|]).
  case_bool_decide; [|reflexivity].
  subst c. now destruct Hlen.
Qed.

Lemma candidates_skip_server (name : string) (cs : list path) :
  Forall (fun c => length c <> 2%nat) cs ->
  omap (fun c => List.find (fun m => bool_decide (file_path m = c))
                   (workouts_modules name)) cs =
  omap (fun c => List.find (fun m => bool_decide (file_path m = c))
                   [auth_js; date_js; profile_router_js]) cs.
Proof.
  induction 1 as [|c cs Hc _ IH]; [reflexivity|].
  cbn [omap list_omap]. rewrite (find_skips_server name c Hc), IH. reflexivity.
Qed.

Lemma require_target_skips_server (name : string) (f : source_file)
    (spec : string) :
  (is_relative spec = true ->
   Forall (fun c => length c <> 2%nat)
     (candidates (normalize (reverse (directory (file_path f)))
                            (split "/"%char spec)))) ->
  require_target (workouts_modules name) f spec =
  require_target [auth_js; date_js; profile_router_js] f spec.
Proof.
  intros Hcs. unfold require_target.
  destruct (is_relative spec); [|reflexivity].
  now rewrite (candidates_skip_server name _ (Hcs eq_refl)).
Qed.

(** Requires that resolve below Workouts/middleware or Workouts/router are
    looked up among the three modules found there. *)
Lemma imports_skip_server (name : string) (f : source_file) :
  Forall (fun r =>
            is_relative r.2 = true ->
            Forall (fun c => length c <> 2%nat)
              (candidates (normalize (reverse (directory (file_path f)))
                                     (split "/"%char r.2))))
         (requires f) ->
  imports (workouts_modules name) f =
  imports [auth_js; date_js; profile_router_js] f.
Proof.
  unfold imports. induction 1 as [|r rs Hr _ IH]; [reflexivity|].
  cbn [omap list_omap].
  rewrite IH, (require_target_skips_server name f r.2 Hr). reflexivity.
Qed.

(** What profile.router.js loads from the repository. *)
Lemma profile_router_imports (server_name : string) :
  imports (workouts_modules server_name) profile_router_js =
    [("verifyToken", auth_js)].
Proof. rewrite imports_skip_server by candidate_lengths. reflexivity. Qed.

(** What the server module loads from the repository. *)
Lemma server_imports (server_name : string) :
  imports (workouts_modules server_name) (server_js server_name) =
    [("printDate", date_js); ("profileRouter", profile_router_js)].
Proof. rewrite imports_skip_server by candidate_lengths. reflexivity. Qed.

(** The export of auth.js at work in profile.router.js: a request whose
    bearer segment verifies gets the payload that [verifyToken] attached to
    [req.user] back in the body of the profile response. *)
Lemma profile_route_serves_decoded_user {J : Jsonwebtoken} (w : world)
    (h seg : string) (decoded : json) :
  headers (req w) !! "authorization" = Some h ->
  segment_after_first_space h = Some seg ->
  jwt_verify (Some seg) SECRET_KEY = Normal decoded ->
  sent (res (final (profile_route w))) =
    (sent (res w) ++
     [(statusCode (res w),
       JObj [("message", JStr "Profile data"); ("user", decoded)])])%list.
Proof.
  intros Hh Hseg Hv. unfold profile_route.
  assert (Hne : h <> "") by (intros ->; discriminate Hseg).
  rewrite <- split_second in Hseg.
  rewrite (@verifyToken_accepts J (layer profile_handler) w h decoded Hh Hne)
    by (rewrite ?Hseg; auto).
  reflexivity.
Qed.

(** C9, amended. The two middleware modules require no file of the
    repository (auth.js requires the jsonwebtoken package, date.js
    nothing), but the repository is not made of self-contained files only:
    profile.router.js requires [../middleware/auth] and binds its export as
    [verifyToken], and the server module requires [./middleware/date] and
    [./router/profile.router]. *)
Theorem workouts_module_graph (server_name : string) :
  let modules := workouts_modules server_name in
  imports modules auth_js = [] /\
  imports modules date_js = [] /\
  imports modules profile_router_js = [("verifyToken", auth_js)] /\
  imports modules (server_js server_name) =
    [("printDate", date_js); ("profileRouter", profile_router_js)] /\
  exported auth_js = Some "verifyToken" /\
  exported date_js = Some "printDate" /\
  exported profile_router_js = Some "router".
Proof.
  cbv zeta.
  split; [reflexivity|]. split; [reflexivity|].
  split; [apply profile_router_imports|].
  split; [apply server_imports|]. repeat split.
Qed.

(** C9 as stated fails on profile.router.js, which loads
    Workouts/middleware/auth.js, whatever the server module is called. *)
Lemma workouts_not_self_contained :
  ~ exists server_name : string, self_contained (workouts_modules server_name).
Proof.
  intros [name Hclaim].
  assert (Hin : profile_router_js ∈ workouts_modules name)
    by (unfold workouts_modules; set_solver).
  specialize (Hclaim _ Hin).
  rewrite profile_router_imports in Hclaim.
  discriminate Hclaim.
Qed.

(** * Further properties of the code *)

(** ** [verifyToken]: which part of the header counts *)

Lemma after_first_append (c : ascii) (s t : string) :
  contains c s = false ->
  after_first c (s ++ String c t) = Some t.
Proof.
  induction s as [|a s IH]; simpl.
  - intros _. now rewrite Ascii.eqb_refl.
  - destruct (Ascii.eqb a c); simpl; [discriminate|exact IH].
Qed.

Lemma before_first_append (c : ascii) (s rest : string) :
  contains c s = false ->
  rest = "" \/ (exists r, rest = String c r) ->
  before_first c (s ++ rest) = s.
Proof.
  intros Hs Hrest. induction s as [|a s IH]; simpl in *.
  - destruct Hrest as [->|[r ->]]; simpl; [reflexivity|].
    now rewrite Ascii.eqb_refl.
  - destruct (Ascii.eqb a c); simpl in *; [discriminate|].
    now rewrite IH.
Qed.

(** The segment after the first space of [scheme token rest]. *)
Lemma segment_of_header (scheme token rest : string) :
  contains space scheme = false ->
  contains space token = false ->
  rest = "" \/ (exists r, rest = String space r) ->
  segment_after_first_space (scheme ++ String space (token ++ rest)) =
    Some token.
Proof.
  intros Hscheme Htoken Hrest. unfold segment_after_first_space.
  rewrite (after_first_append _ _ _ Hscheme). simpl.
  now rewrite (before_first_append _ _ _ Htoken Hrest).
Qed.

Lemma append_space_nonempty (s t : string) : s ++ String space t <> "".
Proof. destruct s; discriminate. Qed.

Section Bearer.
Context {J : Jsonwebtoken} {K : Continuation}.

(** X1. In a header of the form [scheme token rest], where [scheme] and
    [token] have no space and [rest] is empty or starts at a second space,
    only [token] counts: it is what [jwt.verify] receives, and what
    [verifyToken] does next depends on the header through nothing else.
    The scheme word is not looked at (it may be empty or anything but
    Bearer) and what follows a second space is dropped. *)
Theorem verifyToken_checks_only_second_segment (w : world)
    (scheme token rest : string) :
  headers (req w) !! "authorization" =
    Some (scheme ++ String space (token ++ rest)) ->
  contains space scheme = false ->
  contains space token = false ->
  rest = "" \/ (exists r, rest = String space r) ->
  calls (verifyToken w) =
    jwt_verify_call (Some token) SECRET_KEY ::
    match jwt_verify (Some token) SECRET_KEY with
    | Thrown _ =>
        [res_status_call 401; res_json_call (message "Invalid token")]
    | Normal decoded =>
        match fst (next_k (authenticated w decoded)) with
        | Normal _ => [next_call]
        | Thrown _ =>
            [next_call; res_status_call 401;
             res_json_call (message "Invalid token")]
        end
    end.
Proof.
  intros Hh Hscheme Htoken Hrest.
  pose proof (segment_of_header scheme token rest Hscheme Htoken Hrest) as Hseg.
  rewrite <- split_second in Hseg.
  pose proof (append_space_nonempty scheme (token ++ rest)) as Hne.
  destruct (jwt_verify (Some token) SECRET_KEY) as [decoded|e] eqn:Hv.
  - destruct (fst (next_k (authenticated w decoded))) as [[]|e] eqn:Hk.
    + rewrite (verifyToken_accepts w _ decoded Hh Hne) by (rewrite ?Hseg; auto).
      simpl. now rewrite Hseg.
    + rewrite (verifyToken_next_throws w _ decoded e Hh Hne)
        by (rewrite ?Hseg; auto).
      simpl. now rewrite Hseg.
  - rewrite (verifyToken_rejects w _ e Hh Hne) by (rewrite Hseg; auto).
    simpl. now rewrite Hseg.
Qed.

(** X2. [verifyToken] never throws: whatever [jwt.verify] and [next] do,
    an exception raised by either ends in its [catch], and the function
    returns. *)
Theorem verifyToken_never_throws (w : world) :
  outcome (verifyToken w) = Normal tt.
Proof. now destruct (verifyToken_paths w). Qed.

(** X3. [jwt.verify] is called exactly when the authorization header is
    truthy, then once, and never with another key than [SECRET_KEY]. *)
Theorem verifyToken_verifies_iff_header (w : world) :
  count_calls is_verify (calls (verifyToken w)) =
    (if truthy (headers (req w) !! "authorization") then 1 else 0)%nat /\
  Forall (fun c => is_verify c = true ->
                   exists arg, c = jwt_verify_call arg SECRET_KEY)
         (calls (verifyToken w)).
Proof.
  destruct (verifyToken_paths w) as [Ht|h e Hh Hne Hv|h d Hh Hne Hv Hk|h d e Hh Hne Hv Hk];
    unfold count_calls; simpl.
  - rewrite Ht. split; [reflexivity|].
    repeat (apply List.Forall_cons; [discriminate|]). apply List.Forall_nil.
  - assert (Ht : truthy (headers (req w) !! "authorization") = true)
      by (apply truthy_true; eauto).
    rewrite Ht. split; [reflexivity|].
    apply List.Forall_cons; [eauto|].
    repeat (apply List.Forall_cons; [discriminate|]). apply List.Forall_nil.
  - assert (Ht : truthy (headers (req w) !! "authorization") = true)
      by (apply truthy_true; eauto).
    rewrite Ht. split; [reflexivity|].
    apply List.Forall_cons; [eauto|].
    repeat (apply List.Forall_cons; [discriminate|]). apply List.Forall_nil.
  - assert (Ht : truthy (headers (req w) !! "authorization") = true)
      by (apply truthy_true; eauto).
    rewrite Ht. split; [reflexivity|].
    apply List.Forall_cons; [eauto|].
    repeat (apply List.Forall_cons; [discriminate|]). apply List.Forall_nil.
Qed.

(** X4. When [verifyToken] does not call [next], it leaves [req] and the
    console as they were and adds exactly one response, sent with status
    403 or 401, which is also the status code left on [res]. *)
Theorem verifyToken_refusal_frame (w : world) :
  count_calls is_next (calls (verifyToken w)) = 0%nat ->
  req (final (verifyToken w)) = req w /\
  console (final (verifyToken w)) = console w /\
  exists (code : Z) (text : string),
    (code = 403 \/ code = 401) /\
    res (final (verifyToken w)) =
      Response code (sent (res w) ++ [(code, message text)]).
Proof.
  intros Hnext.
  destruct (verifyToken_paths w) as [Ht|h e Hh Hne Hv|h d Hh Hne Hv Hk|h d e Hh Hne Hv Hk];
    unfold count_calls in Hnext; simpl in Hnext; try discriminate Hnext;
    simpl; repeat split; eauto.
Qed.
End Bearer.

(** ** The protected route and the server *)

Section Server.
Context {J : Jsonwebtoken} {C : Clock} {E : Express} {N : NodeModule}.

(** X5. The profile route answers every request exactly once and writes
    nothing on the console: 403 without a truthy authorization header, 401
    when the second segment does not verify, and the profile, carrying the
    decoded payload as [user], only when it verifies. *)
Theorem profile_route_answers (w : world) :
  outcome (profile_route w) = Normal tt /\
  sent (res (final (profile_route w))) =
    (sent (res w) ++ [profile_answer w])%list /\
  console (final (profile_route w)) = console w.
Proof.
  unfold profile_route, profile_answer.
  destruct (@verifyToken_paths J (layer profile_handler) w)
    as [Ht|h e Hh Hne Hv|h d Hh Hne Hv Hk|h d e Hh Hne Hv Hk].
  - apply truthy_false in Ht as [->| ->]; simpl; repeat split.
  - rewrite Hh, Hv. apply String.eqb_neq in Hne. rewrite Hne.
    simpl. repeat split.
  - rewrite Hh, Hv. apply String.eqb_neq in Hne. rewrite Hne.
    simpl. repeat split.
  - discriminate Hk.
Qed.

(** The part of the stack behind the router, on a request the router does
    not take. *)
Lemma server_behind_router (rq : request_line) (w : world) :
  req_method rq <> "OPTIONS" ->
  handles_get (req_method rq) && path_matches "/profile" (req_path rq) = false ->
  server rq w =
    Result (Normal tt)
      (final (dispatch pages rq (finalhandler rq) (dated w))) [].
Proof.
  intros Hmethod Hroute. unfold server, app.
  apply String.eqb_neq in Hmethod. rewrite Hmethod.
  simpl. rewrite Hroute. reflexivity.
Qed.

(** A route registered with [.get] does not serve OPTIONS. *)
Lemma handles_get_not_options (method : string) :
  handles_get method = true -> method <> "OPTIONS".
Proof. intros Hm ->. discriminate Hm. Qed.

(** X6. A GET or HEAD request that matches [/profile] is answered by the
    profile route alone: the router is mounted before [printDate], so the
    request is never written to the console. *)
Theorem server_profile_not_logged (rq : request_line) (w : world) :
  handles_get (req_method rq) = true ->
  path_matches "/profile" (req_path rq) = true ->
  server rq w = profile_route w /\
  console (final (server rq w)) = console w.
Proof.
  intros Hm Hp.
  assert (Hs : server rq w = profile_route w).
  { pose proof (handles_get_not_options _ Hm) as Hmethod.
    apply String.eqb_neq in Hmethod.
    unfold server, app. rewrite Hmethod. simpl. rewrite Hm, Hp. reflexivity. }
  split; [exact Hs|]. rewrite Hs. apply profile_route_answers.
Qed.

(** X7. Every request with another method than OPTIONS that the profile
    route does not take gets the line of [printDate] on the console before
    any page route sees it. *)
Theorem server_logs_other_requests (rq : request_line) (w : world) :
  req_method rq <> "OPTIONS" ->
  handles_get (req_method rq) && path_matches "/profile" (req_path rq) = false ->
  final (server rq w) = final (dispatch pages rq (finalhandler rq) (dated w)) /\
  dated w =
    World (req w) (res w)
      (console w ++ [(toLocaleTimeString ++ ", " ++ toLocaleDateString)%string]).
Proof.
  intros Hmethod Hroute.
  rewrite (server_behind_router rq w Hmethod Hroute). repeat split.
Qed.

(** X8. A GET or HEAD request whose path matches none of the five routes
    is logged and answered by the catch-all route with status 404 and
    the body [<h1>404</h1>]. *)
Theorem server_unknown_path (rq : request_line) (w : world) :
  handles_get (req_method rq) = true ->
  path_matches "*" (req_path rq) = true ->
  Forall (fun route => path_matches route (req_path rq) = false)
         ["/profile"; "/"; "/contact"; "/about"; "/blog"] ->
  final (server rq w) =
    World (req w)
      (Response 404 (sent (res w) ++ [(404, JStr "<h1>404</h1>")]))
      (console w ++ [(toLocaleTimeString ++ ", " ++ toLocaleDateString)%string]).
Proof.
  intros Hm Hstar Hroutes.
  apply Forall_cons in Hroutes as [Hprofile Hroutes].
  apply Forall_cons in Hroutes as [Hhome Hroutes].
  apply Forall_cons in Hroutes as [Hcontact Hroutes].
  apply Forall_cons in Hroutes as [Habout Hroutes].
  apply Forall_cons in Hroutes as [Hblog _].
  rewrite server_behind_router
    by (try apply handles_get_not_options; rewrite ?Hm, ?Hprofile; reflexivity).
  unfold pages. simpl.
  rewrite Hm, Hhome, Hcontact, Habout, Hblog, Hstar. reflexivity.
Qed.

(** X9. A request with another method than GET, HEAD or OPTIONS is logged
    and then left to Express's final handler: no route of the server
    answers it. *)
Theorem server_other_methods (rq : request_line) (w : world) :
  req_method rq <> "OPTIONS" ->
  handles_get (req_method rq) = false ->
  final (server rq w) = final (finalhandler rq (dated w)).
Proof.
  intros Hmethod Hm.
  rewrite server_behind_router by (try assumption; rewrite Hm; reflexivity).
  unfold pages. simpl. rewrite Hm. reflexivity.
Qed.

End Server.

(** ** Error handlers: what reaches the client *)

(** X11. Outside development the comprehensive handler (line 161) sends
    nothing of the stack: two errors with the same status and message get
    the same response, whatever their stacks and details. *)
Theorem comprehensive_handler_hides_stack {E : ProcessEnv}
    (err1 err2 : js_error) (w : world) :
  NODE_ENV <> Some "development" ->
  err_status err1 = err_status err2 ->
  err_message err1 = err_message err2 ->
  sent (res (final (comprehensive_handler err1 w))) =
  sent (res (final (comprehensive_handler err2 w))).
Proof.
  intros Henv Hstatus Hmessage.
  unfold comprehensive_handler. run_m.
  rewrite bool_decide_eq_false_2 by exact Henv.
  now rewrite Hstatus, Hmessage.
Qed.

(** X12. An [AppError] reaches the client as it was built: with a status
    other than zero and a message that is not empty, each of the three
    handlers built on [err.status || 500] answers with that status and a
    body whose [success] is false and whose [message] is that message. *)
Theorem AppError_reaches_client {E : ProcessEnv} (text : string)
    (status : Z) (stack : string) (w : world) :
  status <> 0 -> text <> "" ->
  Forall (fun handler : js_error -> M unit =>
            exists body : json,
              sent (res (final (handler (AppError text status stack) w))) =
                (sent (res w) ++ [(status, body)])%list /\
              get_prop body "success" = Some (JBool false) /\
              get_prop body "message" = Some (JStr text))
         [structured_handler; custom_error_handler; comprehensive_handler].
Proof.
  intros Hstatus Htext.
  apply Z.eqb_neq in Hstatus. apply String.eqb_neq in Htext.
  repeat (apply List.Forall_cons;
          [eexists; split;
           [run_m; unfold or_status; simpl; rewrite Hstatus; reflexivity|];
           unfold or_string; simpl; rewrite Htext;
           try destruct (bool_decide _); split; reflexivity|]).
  apply List.Forall_nil.
Qed.

(** X13. The five handlers that hard-code status 500 tell the client
    nothing about the error: any two errors get the same response. *)
Theorem generic_handlers_reveal_nothing {E : ProcessEnv} :
  Forall (fun h =>
            uses_err_status h = false ->
            forall (err1 err2 : js_error) (w : world),
              sent (res (final (handle h err1 w))) =
              sent (res (final (handle h err2 w))))
         error_handlers.
Proof.
  unfold error_handlers.
  repeat (apply List.Forall_cons;
          [intros Hgeneric; first [discriminate Hgeneric|reflexivity]|]).
  apply List.Forall_nil.
Qed.

(** X14. Both routes that forward an asynchronous error (lines 286 and
    301), in front of the handler of line 293, answer exactly once: with
    the result of the operation and the current status when it resolves
    with a value that is not a number, with 500 and "Asynchronous error
    occurred" when it rejects, whatever the error is. *)
Theorem async_routes_answer_once {A : AsyncOperation} {E : Express}
    (as_error : js_exn -> js_error) (w : world) :
  (forall n : Z, someAsyncOperation <> Normal (JNum n)) ->
  Forall (fun route : (js_exn -> M unit) -> M unit =>
            let r := route (fun e => async_handler (as_error e)) w in
            outcome r = Normal tt /\
            count_calls is_send (calls r) = 1%nat /\
            sent (res (final r)) =
              (sent (res w) ++
               [match someAsyncOperation with
                | Normal result => (statusCode (res w), result)
                | Thrown _ => (500, JStr "Asynchronous error occurred")
                end])%list)
         [async_error_route; async_await_route].
Proof.
  intros Hvalue.
  assert (Hsend : forall result : json,
             someAsyncOperation = Normal result ->
             res_send_value result = res_send result).
  { intros result Hresult. destruct result; try reflexivity.
    now destruct (Hvalue n). }
  repeat (apply List.Forall_cons;
          [unfold async_error_route, async_await_route, await, async_handler,
             count_calls;
           run_m; destruct someAsyncOperation as [result|e];
           [rewrite (Hsend result eq_refl)|]; simpl; repeat split|]).
  apply List.Forall_nil.
Qed.

(** ** routes/admin.js *)

(** X15. The dashboard route answers every request exactly once: with the
    dashboard when [req.user] is an object whose [isAdmin] is truthy, with
    403 and "Permission denied" otherwise; [req] is never changed. *)
Theorem dashboard_route_answers (w : world) :
  outcome (dashboard_route w) = Normal tt /\
  req (final (dashboard_route w)) = req w /\
  sent (res (final (dashboard_route w))) =
    (sent (res w) ++
     [if is_admin w
      then (statusCode (res w), JStr "Welcome to the admin dashboard")
      else (403, JStr "Permission denied")])%list.
Proof.
  unfold dashboard_route, checkAdmin. destruct (is_admin w); repeat split.
Qed.

(** X16. [checkAdmin] lets nobody through whose [req.user] is missing or is
    not an object, and nobody whose [isAdmin] is missing: such a request
    is refused with 403 and [next] is not called. *)
Theorem checkAdmin_refuses_without_flag {K : Continuation} (w : world) :
  (forall u, user (req w) = Some u -> get_prop u "isAdmin" = None) ->
  calls (checkAdmin w) =
    [res_status_call 403; res_send_call (JStr "Permission denied")] /\
  count_calls is_next (calls (checkAdmin w)) = 0%nat.
Proof.
  intros Hflag. unfold checkAdmin, is_admin.
  destruct (user (req w)) as [u|]; [|split; reflexivity].
  rewrite (Hflag u eq_refl), andb_false_r. split; reflexivity.
Qed.

(** ** The local strategy *)

(** X17. The verify callback of the local strategy hands a user to [done]
    exactly when [User.findOne] resolved with that user, a truthy value,
    and [validPassword] returned a truthy value for the password. It
    reports "Incorrect username." exactly when [User.findOne] resolved
    with a falsy value, and "Incorrect password." exactly when it resolved
    with a truthy one for which [validPassword] returned a falsy value. *)
Theorem local_verify_authenticates {U : UserModel}
    (username password : string) :
  (forall account : json,
      local_verify username password = done_user account <->
      findOne username = Normal account /\ json_truthy account = true /\
      exists valid : json,
        validPassword account password = Normal valid /\
        json_truthy valid = true) /\
  (local_verify username password =
     done_false (message "Incorrect username.") <->
   exists found : json,
     findOne username = Normal found /\ json_truthy found = false) /\
  (local_verify username password =
     done_false (message "Incorrect password.") <->
   exists account valid : json,
     findOne username = Normal account /\ json_truthy account = true /\
     validPassword account password = Normal valid /\
     json_truthy valid = false).
Proof.
  unfold local_verify. split; [|split].
  - intros account. split.
    + destruct (findOne username) as [found|e]; [|discriminate].
      destruct (json_truthy found) eqn:Hfound; simpl; [|discriminate].
      destruct (validPassword found password) as [valid|e] eqn:Hv;
        [|discriminate].
      destruct (json_truthy valid) eqn:Hvalid; simpl; [|discriminate].
      intros [= <-]. eauto.
    + intros (-> & Hfound & valid & -> & Hvalid).
      now rewrite Hfound, Hvalid.
  - split.
    + destruct (findOne username) as [found|e]; [|discriminate].
      destruct (json_truthy found) eqn:Hfound; simpl; [|eauto].
      destruct (validPassword found password) as [valid|e']; [|discriminate].
      destruct (json_truthy valid); discriminate.
    + intros (found & -> & Hfound). now rewrite Hfound.
  - split.
    + destruct (findOne username) as [found|e]; [|discriminate].
      destruct (json_truthy found) eqn:Hfound; simpl; [|discriminate].
      destruct (validPassword found password) as [valid|e] eqn:Hv;
        [|discriminate].
      destruct (json_truthy valid) eqn:Hvalid; simpl; [|eauto 10].
      discriminate.
    + intros (account & valid & -> & Hfound & -> & Hvalid).
      now rewrite Hfound, Hvalid.
Qed.

(** ** The fork loop *)

(** X18. The fork loop stops after [numCPUs] rounds: with that much fuel
    or more it makes exactly [numCPUs] calls of [cluster.fork()] and
    nothing else. *)
Theorem fork_loop_terminates (fuel numCPUs : nat) :
  (numCPUs <= fuel)%nat ->
  fork_loop fuel 0 numCPUs = replicate numCPUs fork_call /\
  fork_loop fuel 0 numCPUs = fork_loop numCPUs 0 numCPUs.
Proof.
  intros Hfuel. rewrite !fork_loop_replicate by lia.
  now rewrite Nat.sub_0_r.
Qed.

(** X19. The three handlers built on [err.status || 500] never answer
    with status zero nor with an empty message, whatever the error
    carries; [success] is always false. *)
Theorem structured_handlers_always_informative {E : ProcessEnv}
    (err : js_error) (w : world) :
  Forall (fun handler : js_error -> M unit =>
            exists (status : Z) (body : json) (text : string),
              sent (res (final (handler err w))) =
                (sent (res w) ++ [(status, body)])%list /\
              status <> 0 /\
              get_prop body "success" = Some (JBool false) /\
              get_prop body "message" = Some (JStr text) /\ text <> "")
         [structured_handler; custom_error_handler; comprehensive_handler].
Proof.
  assert (Hstatus : or_status (err_status err) 500 <> 0).
  { unfold or_status. destruct (err_status err) as [n|]; [|discriminate].
    destruct (Z.eqb_spec n 0); [discriminate|assumption]. }
  assert (Htext : forall fallback, fallback <> "" ->
                    or_string (err_message err) fallback <> "").
  { intros fallback Hf. unfold or_string.
    destruct (err_message err) as [s|]; [|assumption].
    destruct (String.eqb_spec s ""); assumption. }
  repeat (apply List.Forall_cons;
          [eexists _, _, _; split; [run_m; reflexivity|];
           split; [exact Hstatus|];
           simpl; try destruct (bool_decide _); try destruct (err_stack err);
           repeat split; apply Htext; discriminate|]).
  apply List.Forall_nil.
Qed.

(** ** [verifyToken] and a failure further down *)

(** X20. When the token verifies and [next] throws, [verifyToken] has set
    [req.user] and called [next], and then its [catch] answers 401 with
    "Invalid token": the exception of the later handler is lost and the
    valid token is reported as invalid. *)
Theorem verifyToken_misreports_downstream_failure {J : Jsonwebtoken}
    {K : Continuation} (w : world) (h seg : string) (decoded : json)
    (e : js_exn) :
  headers (req w) !! "authorization" = Some h ->
  segment_after_first_space h = Some seg ->
  jwt_verify (Some seg) SECRET_KEY = Normal decoded ->
  fst (next_k (authenticated w decoded)) = Thrown e ->
  outcome (verifyToken w) = Normal tt /\
  calls (verifyToken w) =
    [jwt_verify_call (Some seg) SECRET_KEY; next_call;
     res_status_call 401; res_json_call (message "Invalid token")] /\
  final (verifyToken w) =
    answered (snd (next_k (authenticated w decoded))) 401
      (message "Invalid token").
Proof.
  intros Hh Hseg Hv Hk.
  assert (Hne : h <> "") by (intros ->; discriminate Hseg).
  rewrite <- split_second in Hseg.
  rewrite (verifyToken_next_throws w h decoded e Hh Hne)
    by (rewrite ?Hseg; assumption).
  rewrite Hseg. repeat split.
Qed.

(** ** The hypotheses above hold on concrete requests *)

(** X1 on a header with another scheme and a trailing word. *)
Lemma verifyToken_checks_only_second_segment_witness :
  let w := incoming {[ "authorization" := "Basic valid.jwt.token trailing" ]} in
  calls (@verifyToken fixture_jwt end_of_pipeline w) =
    [jwt_verify_call (Some "valid.jwt.token") SECRET_KEY; next_call].
Proof.
  exact (@verifyToken_checks_only_second_segment fixture_jwt end_of_pipeline
           (incoming {[ "authorization" := "Basic valid.jwt.token trailing" ]})
           "Basic" "valid.jwt.token" " trailing"
           eq_refl eq_refl eq_refl
           (or_intror (ex_intro _ "trailing" eq_refl))).
Defined.

(** X4 on a token that does not verify. *)
Lemma verifyToken_refusal_frame_witness :
  let w := incoming {[ "authorization" := "Bearer expired" ]} in
  count_calls is_next (calls (@verifyToken fixture_jwt end_of_pipeline w)) = 0%nat /\
  req (final (@verifyToken fixture_jwt end_of_pipeline w)) = req w /\
  console (final (@verifyToken fixture_jwt end_of_pipeline w)) = console w /\
  exists (code : Z) (text : string),
    (code = 403 \/ code = 401) /\
    res (final (@verifyToken fixture_jwt end_of_pipeline w)) =
      Response code (sent (res w) ++ [(code, message text)]).
Proof.
  split; [reflexivity|].
  apply (@verifyToken_refusal_frame fixture_jwt end_of_pipeline).
  reflexivity.
Defined.

(** X6 on [GET /profile] with a valid bearer token. *)
Lemma server_profile_not_logged_witness :
  let rq := RequestLine "GET" "/profile" in
  let w := incoming {[ "authorization" := "Bearer valid.jwt.token" ]} in
  @server fixture_jwt fixture_clock fixture_express fixture_module rq w =
    @profile_route fixture_jwt w /\
  console (final (@server fixture_jwt fixture_clock fixture_express
                    fixture_module rq w)) = console w.
Proof.
  apply (@server_profile_not_logged fixture_jwt fixture_clock fixture_express
           fixture_module); reflexivity.
Defined.

(** X7 on [GET /contact]. *)
Lemma server_logs_other_requests_witness :
  let rq := RequestLine "GET" "/contact" in
  let w := incoming ∅ in
  final (@server fixture_jwt fixture_clock fixture_express fixture_module rq w) =
    final (dispatch (@pages fixture_express fixture_module) rq
             (@finalhandler fixture_express rq) (@dated fixture_clock w)) /\
  @dated fixture_clock w =
    World (req w) (res w) (console w ++ ["10:15:30 AM, 11/2/2026"]).
Proof.
  apply (@server_logs_other_requests fixture_jwt fixture_clock fixture_express
           fixture_module).
  - discriminate.
  - reflexivity.
Defined.

(** X8 on [GET /nowhere]. *)
Lemma server_unknown_path_witness :
  let rq := RequestLine "GET" "/nowhere" in
  let w := incoming ∅ in
  final (@server fixture_jwt fixture_clock fixture_express fixture_module rq w) =
    World (req w)
      (Response 404 (sent (res w) ++ [(404, JStr "<h1>404</h1>")]))
      (console w ++ ["10:15:30 AM, 11/2/2026"]).
Proof.
  apply (@server_unknown_path fixture_jwt fixture_clock fixture_express
           fixture_module); [reflexivity|reflexivity|].
  repeat (apply List.Forall_cons; [reflexivity|]). apply List.Forall_nil.
Defined.

(** X9 on [POST /contact]. *)
Lemma server_other_methods_witness :
  let rq := RequestLine "POST" "/contact" in
  let w := incoming ∅ in
  final (@server fixture_jwt fixture_clock fixture_express fixture_module rq w) =
    final (@finalhandler fixture_express rq (@dated fixture_clock w)).
Proof.
  apply (@server_other_methods fixture_jwt fixture_clock fixture_express
           fixture_module).
  - discriminate.
  - reflexivity.
Defined.

(** X11 in production, on two errors that differ in stack and details. *)
Lemma comprehensive_handler_hides_stack_witness :
  let err1 := AppError "No products found" 404 "Error: at /products (app.js:15)" in
  let err2 := JsError (Some 404) (Some "No products found") None
                (Some (JStr "internal")) in
  sent (res (final (@comprehensive_handler production_env err1 (incoming ∅)))) =
  sent (res (final (@comprehensive_handler production_env err2 (incoming ∅)))).
Proof.
  apply (@comprehensive_handler_hides_stack production_env).
  - discriminate.
  - reflexivity.
  - reflexivity.
Defined.

(** X12 on the error of the [/user] route. *)
Lemma AppError_reaches_client_witness :
  Forall (fun handler : js_error -> M unit =>
            exists body : json,
              sent (res (final (handler user_not_found (incoming ∅)))) =
                (sent (res (incoming ∅)) ++ [(404, body)])%list /\
              get_prop body "success" = Some (JBool false) /\
              get_prop body "message" = Some (JStr "User not found"))
         [structured_handler; custom_error_handler;
          @comprehensive_handler production_env].
Proof.
  apply (@AppError_reaches_client production_env "User not found" 404
           "Error: User not found" (incoming ∅)); discriminate.
Defined.

(** X14 on an operation that resolves with text. *)
Lemma async_routes_answer_once_witness :
  Forall (fun route : (js_exn -> M unit) -> M unit =>
            let r := route (fun e => async_handler (JsError None None None None))
                       (incoming ∅) in
            outcome r = Normal tt /\
            count_calls is_send (calls r) = 1%nat /\
            sent (res (final r)) = [(200, JStr "done")])
         [@async_error_route fixture_operation fixture_express;
          @async_await_route fixture_operation fixture_express].
Proof.
  apply (@async_routes_answer_once fixture_operation fixture_express
           (fun _ => JsError None None None None) (incoming ∅)).
  intros n. discriminate.
Defined.

(** X16 on a request whose [req.user] is a string. *)
Lemma checkAdmin_refuses_without_flag_witness :
  let w := World (Request ∅ (Some (JStr "alice"))) (Response 200 []) [] in
  calls (@checkAdmin end_of_pipeline w) =
    [res_status_call 403; res_send_call (JStr "Permission denied")] /\
  count_calls is_next (calls (@checkAdmin end_of_pipeline w)) = 0%nat.
Proof.
  apply (@checkAdmin_refuses_without_flag end_of_pipeline).
  intros u [= <-]. reflexivity.
Defined.

(** X18 with more fuel than cores. *)
Lemma fork_loop_terminates_witness :
  fork_loop 10 0 4 = replicate 4 fork_call /\
  fork_loop 10 0 4 = fork_loop 4 0 4.
Proof. apply fork_loop_terminates. lia. Defined.

(** X20 on a valid bearer token in front of a handler that throws. *)
Lemma verifyToken_misreports_downstream_failure_witness :
  let w := incoming {[ "authorization" := "Bearer valid.jwt.token" ]} in
  let decoded := JObj [("id", JNum 1)] in
  outcome (@verifyToken fixture_jwt throwing_next w) = Normal tt /\
  calls (@verifyToken fixture_jwt throwing_next w) =
    [jwt_verify_call (Some "valid.jwt.token") SECRET_KEY; next_call;
     res_status_call 401; res_json_call (message "Invalid token")] /\
  final (@verifyToken fixture_jwt throwing_next w) =
    answered (snd (@next_k throwing_next (authenticated w decoded))) 401
      (message "Invalid token").
Proof.
  apply (@verifyToken_misreports_downstream_failure fixture_jwt throwing_next
           (incoming {[ "authorization" := "Bearer valid.jwt.token" ]})
           "Bearer valid.jwt.token" "valid.jwt.token" (JObj [("id", JNum 1)])
           (JsExn "Error" "downstream failure"));
    reflexivity.
Defined.
